(** * RecipeVault: the recipe cost calculator

    A shallow embedding of [shared/recipeCostCalculator.ts]: unit
    normalisation, the standard conversion table, quantity parsing, the
    single-line cost engine and its aggregations, followed by the
    properties the specification states about them.

    Modelling conventions.
    - A JavaScript string is the list of its UTF-16 code units.
    - A JavaScript number is an IEEE 754 binary64 value, taken from the
      Standard Library's [SpecFloat] with [prec = 53] and [emax = 1024];
      arithmetic is [SFadd], [SFmul], [SFdiv] (round to nearest, ties to
      even), and a decimal literal denotes the correctly rounded value.
    - [Record<string, T>] tables are association lists in source order
      ([Object.entries] enumerates string keys in insertion order), and
      [table[key]] reads the table's own keys. An object literal also
      answers to the names of the properties of [Object.prototype]
      ([objectPrototypeKeys]): [parseFraction] gives the inherited value
      of such a quantity string as [NaN], which is what it is in the
      arithmetic of its callers; for units the inherited values are
      outside the model, and the properties that depend on what a lookup
      in the conversion table finds are stated for units that are not
      such names.
    - [String.prototype.toLowerCase] follows the Unicode tables of the
      engine that runs the code. It is a parameter of the development
      ([ToLowerCase]), and what is assumed of it is stated in
      [LowerCaseLaws]; lowering the ASCII letters only is one instance,
      on which the examples are evaluated. *)

From Stdlib Require Import ZArith NArith List Bool Lia.
From Stdlib Require Import Strings.String Strings.Ascii.
From Stdlib Require Import Floats.SpecFloat.
Import ListNotations.

Set Implicit Arguments.

(** ** JavaScript strings *)

Module JsString.

Definition code_unit := N.
Definition t := list code_unit.

Fixpoint eqb (a b : t) : bool :=
  match a, b with
  | [], [] => true
  | x :: a', y :: b' => N.eqb x y && eqb a' b'
  | _, _ => false
  end.

(** Decoding of a UTF-8 byte sequence into code points, so that literals
    can be written as ordinary strings. *)
Fixpoint utf8_decode (bs : list N) : list N :=
  match bs with
  | [] => []
  | b1 :: r1 =>
      if (b1 <? 128)%N then b1 :: utf8_decode r1
      else
        match r1 with
        | [] => [b1]
        | b2 :: r2 =>
            if (b1 <? 224)%N
            then ((b1 - 192) * 64 + (b2 - 128))%N :: utf8_decode r2
            else
              match r2 with
              | [] => [b1; b2]
              | b3 :: r3 =>
                  if (b1 <? 240)%N
                  then ((b1 - 224) * 4096 + (b2 - 128) * 64 + (b3 - 128))%N
                         :: utf8_decode r3
                  else
                    match r3 with
                    | [] => [b1; b2; b3]
                    | b4 :: r4 =>
                        ((b1 - 240) * 262144 + (b2 - 128) * 4096
                         + (b3 - 128) * 64 + (b4 - 128))%N
                          :: utf8_decode r4
                    end
              end
        end
  end.

(** UTF-16 encoding of one code point. *)
Definition utf16_encode (cp : N) : list code_unit :=
  if (cp <? 65536)%N then [cp]
  else [(55296 + (cp - 65536) / 1024)%N; (56320 + (cp - 65536) mod 1024)%N].

(** The JavaScript string written by a literal. *)
Definition js (s : string) : t :=
  flat_map utf16_encode
           (utf8_decode (map N_of_ascii (list_ascii_of_string s))).

(** Lower-casing of the ASCII letters, unit by unit: what
    [String.prototype.toLowerCase] does on a string of ASCII code
    units. *)
Definition lower_unit (c : code_unit) : code_unit :=
  if (65 <=? c)%N && (c <=? 90)%N then (c + 32)%N else c.

Definition lowerASCII (s : t) : t := map lower_unit s.

Definition isASCII (s : t) : bool := forallb (fun c => (c <? 128)%N) s.

(** Lower-casing, unit by unit, of the letters of ASCII and Latin-1 and of
    the Kelvin and Angstrom signs, whose lower-case forms are the letters
    k and a with a ring. *)
Definition lower_unit_latin1 (c : code_unit) : code_unit :=
  if (65 <=? c)%N && (c <=? 90)%N then (c + 32)%N
  else if (192 <=? c)%N && (c <=? 222)%N && negb (c =? 215)%N then (c + 32)%N
  else if (c =? 8490)%N then 107%N
  else if (c =? 8491)%N then 229%N
  else c.

Definition lowerLatin1 (s : t) : t := map lower_unit_latin1 s.

(** WhiteSpace and LineTerminator code units (ECMAScript
    [StrWhiteSpaceChar]; the same set is the regular expression class
    [\s]). *)
Definition isWhiteSpace (c : code_unit) : bool :=
  ((9 <=? c) && (c <=? 13) || (c =? 32) || (c =? 160) || (c =? 5760)
   || (8192 <=? c) && (c <=? 8202)
   || (c =? 8232) || (c =? 8233) || (c =? 8239) || (c =? 8287)
   || (c =? 12288) || (c =? 65279))%N.

Fixpoint trimStart (s : t) : t :=
  match s with
  | [] => []
  | c :: r => if isWhiteSpace c then trimStart r else s
  end.

Fixpoint trimEnd (s : t) : t :=
  match s with
  | [] => []
  | c :: r =>
      match trimEnd r with
      | [] => if isWhiteSpace c then [] else [c]
      | r' => c :: r'
      end
  end.

(** [String.prototype.trim]. *)
Definition trim (s : t) : t := trimEnd (trimStart s).

(** [String.prototype.includes] for a one-unit needle. *)
Definition includes_unit (c : code_unit) (s : t) : bool :=
  existsb (N.eqb c) s.

(** [String.prototype.split] on a one-unit separator. *)
Fixpoint split (sep : code_unit) (s : t) : list t :=
  match s with
  | [] => [[]]
  | c :: r =>
      if N.eqb c sep then [] :: split sep r
      else
        match split sep r with
        | [] => [[c]]
        | seg :: segs => (c :: seg) :: segs
        end
  end.

(** [Array.prototype.includes] on an array of strings. *)
Definition includes (l : list t) (s : t) : bool := existsb (eqb s) l.

(** Whether [p] is a prefix of [s]. *)
Fixpoint startsWith (p s : t) : bool :=
  match p, s with
  | [], _ => true
  | x :: p', y :: s' => N.eqb x y && startsWith p' s'
  | _ :: _, [] => false
  end.

End JsString.

Abbreviation jsstring := JsString.t.
Abbreviation js := JsString.js.

(** [String.prototype.toLowerCase]. ECMAScript defines it by the Unicode
    Default Case Conversion of the Unicode version the engine implements,
    so the function is a parameter here. *)
Class ToLowerCase := toLowerCase : jsstring -> jsstring.

(** What the development assumes of [toLowerCase], each a property of the
    Unicode lower-casing whatever the version:
    - on a string of ASCII code units it lowers the letters A to Z and
      leaves everything else alone (no ASCII character has a
      context-dependent or multi-character mapping);
    - a lowered string is left unchanged by lowering it again (every
      character a mapping produces is its own lower-case form);
    - it commutes with [trim]: white space has no case, is mapped to
      itself and is produced by no mapping, and the only
      context-dependent mapping, that of a capital sigma, looks for cased
      letters around it, which the white space at either end of a string
      is not. *)
Class LowerCaseLaws (L : ToLowerCase) : Prop := {
  toLowerCase_ascii :
    forall s, JsString.isASCII s = true -> toLowerCase s = JsString.lowerASCII s;
  toLowerCase_idem :
    forall s, toLowerCase (toLowerCase s) = toLowerCase s;
  toLowerCase_trim :
    forall s, toLowerCase (JsString.trim s) = JsString.trim (toLowerCase s)
}.

(** The instance that lowers the ASCII letters only. *)
#[global] Instance asciiLowerCase : ToLowerCase := JsString.lowerASCII.

(** An instance that lowers letters beyond ASCII as well. *)
Definition latin1LowerCase : ToLowerCase := JsString.lowerLatin1.

(** ** JavaScript numbers *)

Module Number.

Definition t := spec_float.

Definition prec : Z := 53.
Definition emax : Z := 1024.

Definition NaN : t := S754_nan.
Definition zero : t := S754_zero false.
Definition one : t := S754_finite false 4503599627370496 (-52).
Definition Infinity (neg : bool) : t := S754_infinity neg.

Definition add : t -> t -> t := SFadd prec emax.
Definition mul : t -> t -> t := SFmul prec emax.
Definition div : t -> t -> t := SFdiv prec emax.

(** [x === y] on numbers. *)
Definition eqb : t -> t -> bool := SFeqb.
(** [x < y] on numbers. *)
Definition ltb : t -> t -> bool := SFltb.
(** [x <= y] on numbers. *)
Definition leb : t -> t -> bool := SFleb.


Definition isNaN (x : t) : bool :=
  match x with S754_nan => true | _ => false end.

(** ToBoolean on a number: false for [+0], [-0] and [NaN]. *)
Definition truthy (x : t) : bool :=
  match x with
  | S754_nan | S754_zero _ => false
  | _ => true
  end.

(** The Number value of the decimal [(-1)^neg * m * 10^e]: the nearest
    binary64 value, ties to even. *)
Definition of_decimal (neg : bool) (m : N) (e : Z) : t :=
  match m with
  | N0 => S754_zero neg
  | Npos p =>
      match e with
      | Zneg k => div (S754_finite neg p 0)
                      (S754_finite false (Pos.pow 10 k) 0)
      | Z0 => div (S754_finite neg p 0) (S754_finite false 1 0)
      | Zpos k => div (S754_finite neg (p * Pos.pow 10 k) 0)
                      (S754_finite false 1 0)
      end
  end.

Definition isDigit (c : N) : bool := ((48 <=? c) && (c <=? 57))%N.

(** The longest run of decimal digits at the head of a string, and
    what follows it. *)
Fixpoint span_digits (s : jsstring) : jsstring * jsstring :=
  match s with
  | c :: r =>
      if isDigit c
      then let '(d, r') := span_digits r in (c :: d, r')
      else ([], s)
  | [] => ([], [])
  end.

(** The value of a run of decimal digits. *)
Definition digits_value (d : jsstring) : N :=
  fold_left (fun acc c => (10 * acc + (c - 48))%N) d 0%N.

(** An optional sign: [+] or [-]. *)
Definition take_sign (s : jsstring) : bool * jsstring :=
  match s with
  | 43%N :: r => (false, r)
  | 45%N :: r => (true, r)
  | _ => (false, s)
  end.

(** An optional ExponentPart: [e] or [E], an optional sign and at least
    one digit; without a digit the exponent indicator is not part of the
    literal. *)
Definition take_exponent (s : jsstring) : Z :=
  match s with
  | c :: r =>
      if (c =? 101)%N || (c =? 69)%N then
        let '(neg, r') := take_sign r in
        match span_digits r' with
        | ([], _) => 0%Z
        | (d, _) =>
            if neg then (- Z.of_N (digits_value d))%Z
            else Z.of_N (digits_value d)
        end
      else 0%Z
  | [] => 0%Z
  end.

(** The global [parseFloat]: leading white space is skipped, the longest
    prefix that is a StrDecimalLiteral is converted, and [NaN] is
    returned when there is none. *)
Definition parseFloat (s : jsstring) : t :=
  let '(neg, u) := take_sign (JsString.trimStart s) in
  if JsString.startsWith (js "Infinity") u then Infinity neg
  else
    let '(ip, r1) := span_digits u in
    let '(fp, r2) :=
      match r1 with
      | 46%N :: r =>
          match span_digits r with
          | ([], _) => ([], match ip with [] => r1 | _ => r end)
          | (d, r') => (d, r')
          end
      | _ => ([], r1)
      end in
    match ip, fp with
    | [], [] => NaN
    | _, _ =>
        of_decimal neg (digits_value (ip ++ fp)%list)
                   (take_exponent r2 - Z.of_nat (List.length fp))
    end.

(** A numeric literal of the source text. *)
Definition lit (s : string) : t := parseFloat (js s).

End Number.

Abbreviation number := Number.t.

(** ** Tables keyed by strings *)

(** The names of the properties that every object literal inherits from
    [Object.prototype] (ECMA-262, the properties of the Object prototype
    object, with its legacy accessor methods). A table answers to them
    with the inherited function or object, not with [undefined]. *)
Definition objectPrototypeKeys : list jsstring :=
  map js [ "constructor"; "hasOwnProperty"; "isPrototypeOf";
           "propertyIsEnumerable"; "toLocaleString"; "toString"; "valueOf";
           "__proto__"; "__defineGetter__"; "__defineSetter__";
           "__lookupGetter__"; "__lookupSetter__" ]%string.

Definition inheritedKey (key : jsstring) : bool :=
  JsString.includes objectPrototypeKeys key.

(** [table[key]] on a [Record<string, A>], among the table's own keys:
    [None] stands for [undefined]. This is what the code finds for every
    [key] that is not an [inheritedKey]. *)
Fixpoint lookup {A : Type} (key : jsstring) (table : list (jsstring * A))
  : option A :=
  match table with
  | [] => None
  | (k, v) :: rest => if JsString.eqb key k then Some v else lookup key rest
  end.

(** ToBoolean on the result of a numeric lookup: [undefined] is falsy. *)
Definition truthy_lookup (o : option number) : bool :=
  match o with
  | Some v => Number.truthy v
  | None => false
  end.

(** ** The data model *)

Module InventoryItem.
Record t := mk {
  id : jsstring;
  name : jsstring;
  unitQuantity : jsstring;
  unit : jsstring;
  unitPrice : jsstring
}.
End InventoryItem.

Module RecipeIngredientWithInventory.
Record t := mk {
  quantity : jsstring;
  unit : jsstring;
  inventoryItem : InventoryItem.t
}.
End RecipeIngredientWithInventory.

Module UnitConversion.
Record t := mk {
  id : jsstring;
  inventoryItemId : jsstring;
  fromUnit : jsstring;
  toUnit : jsstring;
  conversionFactor : jsstring
}.
End UnitConversion.

Module UnitMismatchWarning.
Record t := mk {
  ingredientName : jsstring;
  recipeUnit : jsstring;
  inventoryUnit : jsstring;
  inventoryItemId : jsstring;
  inventoryItemName : jsstring;
  canConvert : bool;
  conversion : option UnitConversion.t
}.
End UnitMismatchWarning.

Module CostCalculationResult.
Record t := mk {
  cost : number;
  hasUnitMismatch : bool;
  usedConversion : option UnitConversion.t
}.
End CostCalculationResult.

Abbreviation Ingredient := RecipeIngredientWithInventory.t.
Abbreviation Conversion := UnitConversion.t.
Abbreviation Warning := UnitMismatchWarning.t.
Abbreviation Result := CostCalculationResult.t.

(** The result of [calculateRecipeCostDetailed]. *)
Module RecipeCostDetailed.
Record t := mk {
  totalCost : number;
  ingredientCosts : list (Ingredient * Result);
  mismatches : list Warning;
  linkedCount : nat;
  totalIngredients : nat
}.
End RecipeCostDetailed.

(** An entry of [calculateCostBreakdown]. *)
Module CostBreakdownLine.
(** [RecipeIngredientWithInventory & { cost; hasUnitMismatch }]. *)
Record t := mk {
  quantity : jsstring;
  unit : jsstring;
  inventoryItem : InventoryItem.t;
  cost : number;
  hasUnitMismatch : bool
}.
End CostBreakdownLine.

Module Import Fields.
Abbreviation cost := CostCalculationResult.cost.
Abbreviation hasUnitMismatch := CostCalculationResult.hasUnitMismatch.
Abbreviation usedConversion := CostCalculationResult.usedConversion.
Abbreviation canConvert := UnitMismatchWarning.canConvert.
Abbreviation inventoryItem := RecipeIngredientWithInventory.inventoryItem.
End Fields.

(** ** The unit tables *)

Definition aliases (canonical : string) (spellings : list string)
  : jsstring * list jsstring :=
  (js canonical, map js spellings).

Definition UNIT_ALIASES : list (jsstring * list jsstring) :=
  [ aliases "g" ["g"; "gr"; "gram"; "grams"; "gm"];
    aliases "kg" ["kg"; "kilo"; "kilogram"; "kilograms"];
    aliases "ml" ["ml"; "milliliter"; "millilitre"; "milliliters";
                  "millilitres"];
    aliases "l" ["l"; "liter"; "litre"; "liters"; "litres"];
    aliases "unit" ["unit"; "units"; "ea"; "each"; "piece"; "pieces"; "pc";
                    "pcs"];
    aliases "cup" ["cup"; "cups"; "c"];
    aliases "tbsp" ["tbsp"; "tablespoon"; "tablespoons"; "tbs"];
    aliases "tsp" ["tsp"; "teaspoon"; "teaspoons"];
    aliases "oz" ["oz"; "ounce"; "ounces"];
    aliases "lb" ["lb"; "lbs"; "pound"; "pounds"];
    aliases "bunch" ["bunch"; "bunches"];
    aliases "head" ["head"; "heads"];
    aliases "clove" ["clove"; "cloves"];
    aliases "can" ["can"; "cans"; "tin"; "tins"];
    aliases "bottle" ["bottle"; "bottles"];
    aliases "jar" ["jar"; "jars"];
    aliases "pack" ["pack"; "packs"; "packet"; "packets"];
    aliases "box" ["box"; "boxes"];
    aliases "bag" ["bag"; "bags"];
    aliases "slice" ["slice"; "slices"] ]%string.

Definition factors (from : string) (row : list (string * string))
  : jsstring * list (jsstring * number) :=
  (js from, map (fun '(to, f) => (js to, Number.lit f)) row).

Definition STANDARD_CONVERSIONS : list (jsstring * list (jsstring * number)) :=
  [ factors "g" [("kg", "0.001"); ("oz", "0.03527")];
    factors "kg" [("g", "1000"); ("lb", "2.20462")];
    factors "ml" [("l", "0.001"); ("cup", "0.00423")];
    factors "l" [("ml", "1000"); ("cup", "4.227")];
    factors "oz" [("g", "28.3495"); ("lb", "0.0625")];
    factors "lb" [("oz", "16"); ("kg", "0.453592"); ("g", "453.592")];
    factors "cup" [("ml", "236.588"); ("l", "0.236588")];
    factors "tbsp" [("tsp", "3"); ("ml", "14.787")];
    factors "tsp" [("tbsp", "0.333"); ("ml", "4.929")] ]%string.

(** ** The unit resolver *)

Section Calculator.

Context {L : ToLowerCase}.

(** The [for ... of Object.entries(UNIT_ALIASES)] loop of [normalizeUnit],
    which returns from the first entry whose aliases include [lower]. *)
Fixpoint normalizeUnit_loop (entries : list (jsstring * list jsstring))
         (lower : jsstring) : jsstring :=
  match entries with
  | [] => lower
  | (canonical, spellings) :: rest =>
      if JsString.includes spellings lower then canonical
      else normalizeUnit_loop rest lower
  end.

Definition normalizeUnit (unit : jsstring) : jsstring :=
  let lower := JsString.trim (toLowerCase unit) in
  normalizeUnit_loop UNIT_ALIASES lower.

(** [STANDARD_CONVERSIONS[a]?.[b]]. *)
Definition standardEntry (a b : jsstring) : option number :=
  match lookup a STANDARD_CONVERSIONS with
  | Some row => lookup b row
  | None => None
  end.

Definition areUnitsCompatible (unit1 unit2 : jsstring) : bool :=
  let norm1 := normalizeUnit unit1 in
  let norm2 := normalizeUnit unit2 in
  if JsString.eqb norm1 norm2 then true
  else if truthy_lookup (standardEntry norm1 norm2) then true
  else if truthy_lookup (standardEntry norm2 norm1) then true
  else false.

(** [None] stands for the [null] result. *)
Definition getStandardConversionFactor (fromUnit toUnit : jsstring)
  : option number :=
  let normFrom := normalizeUnit fromUnit in
  let normTo := normalizeUnit toUnit in
  if JsString.eqb normFrom normTo then Some Number.one
  else if truthy_lookup (standardEntry normFrom normTo)
  then standardEntry normFrom normTo
  else if truthy_lookup (standardEntry normTo normFrom)
  then option_map (Number.div Number.one) (standardEntry normTo normFrom)
  else None.

(** The resolution of [getStandardConversionFactor] once both units are
    normalised, and the entries of the table as a flat list, for the
    proofs. *)
Definition standardFactor (normFrom normTo : jsstring) : option number :=
  if JsString.eqb normFrom normTo then Some Number.one
  else if truthy_lookup (standardEntry normFrom normTo)
  then standardEntry normFrom normTo
  else if truthy_lookup (standardEntry normTo normFrom)
  then option_map (Number.div Number.one) (standardEntry normTo normFrom)
  else None.




(** ** The quantity parser *)

Definition fractionMap : list (jsstring * number) :=
  map (fun '(glyph, v) => (js glyph, Number.lit v))
      [ ("¼", "0.25"); ("½", "0.5"); ("¾", "0.75"); ("⅓", "0.333");
        ("⅔", "0.667"); ("⅛", "0.125"); ("⅜", "0.375"); ("⅝", "0.625");
        ("⅞", "0.875") ]%string.

(** The character class [[¼½¾⅓⅔⅛⅜⅝⅞]]. *)
Definition isFractionGlyph (c : N) : bool :=
  existsb (N.eqb c) (js "¼½¾⅓⅔⅛⅜⅝⅞").

(** The capture groups of a successful match of
    [/^(\d+)\s*([¼½¾⅓⅔⅛⅜⅝⅞]|(\d+)\/(\d+))$/]; a group that did not
    take part is [None] ([undefined]). *)
Record MixedMatch := {
  group1 : jsstring;
  group2 : jsstring;
  group3 : option jsstring;
  group4 : option jsstring
}.

(** Every way for [\d+] to match at the head of a string, in the order a
    backtracking matcher tries them: greedy, the longest run first. Each
    is paired with the rest of the input. *)
Fixpoint digitRuns (s : jsstring) : list (jsstring * jsstring) :=
  match s with
  | c :: r =>
      if Number.isDigit c
      then (map (fun '(d, r') => (c :: d, r')) (digitRuns r) ++ [([c], r)])%list
      else []
  | [] => []
  end.

(** Every way for [\s*] to match at the head of a string, longest first;
    only the rest of the input is kept. *)
Fixpoint spaceRuns (s : jsstring) : list jsstring :=
  match s with
  | c :: r =>
      if JsString.isWhiteSpace c then (spaceRuns r ++ [s])%list else [s]
  | [] => [[]]
  end.

(** The alternative [[¼½¾⅓⅔⅛⅜⅝⅞]] followed by [$]. *)
Definition matchGlyph (whole rest : jsstring) : list MixedMatch :=
  match rest with
  | [c] =>
      if isFractionGlyph c
      then [ {| group1 := whole; group2 := rest;
                group3 := None; group4 := None |} ]
      else []
  | _ => []
  end.

(** The alternative [(\d+)\/(\d+)] followed by [$]. *)
Definition matchAscii (whole rest : jsstring) : list MixedMatch :=
  flat_map
    (fun '(n, r1) =>
       match r1 with
       | 47%N :: r2 =>
           flat_map
             (fun '(d, r3) =>
                match r3 with
                | [] => [ {| group1 := whole; group2 := rest;
                             group3 := Some n; group4 := Some d |} ]
                | _ => []
                end)
             (digitRuns r2)
       | _ => []
       end)
    (digitRuns rest).

(** [trimmed.match(/^(\d+)\s*([¼½¾⅓⅔⅛⅜⅝⅞]|(\d+)\/(\d+))$/)]: the first
    success in backtracking order, [None] for [null]. *)
Definition mixedMatch (trimmed : jsstring) : option MixedMatch :=
  hd_error
    (flat_map
       (fun '(whole, r1) =>
          flat_map
            (fun rest => (matchGlyph whole rest ++ matchAscii whole rest)%list)
            (spaceRuns r1))
       (digitRuns trimmed)).

Definition parseFraction (str : jsstring) : number :=
  let trimmed := JsString.trim str in
  (* const num = parseFloat(trimmed); return isNaN(num) ? 0 : num; *)
  let plain :=
    let num := Number.parseFloat trimmed in
    if Number.isNaN num then Number.zero else num in
  (* const mixedMatch = trimmed.match(...); if (mixedMatch) { ... } *)
  let mixed :=
    match mixedMatch trimmed with
    | Some m =>
        let whole := Number.parseFloat (group1 m) in
        let fractionPart := group2 m in
        let ascii :=
          match group3 m with
          | Some ((_ :: _) as n) =>
              Number.div (Number.parseFloat n)
                         match group4 m with
                         | Some d => Number.parseFloat d
                         | None => Number.NaN
                         end
          | _ => Number.zero
          end in
        let fractionValue :=
          match lookup fractionPart fractionMap with
          | Some v => if Number.truthy v then v else ascii
          | None => ascii
          end in
        Number.add whole fractionValue
    | None => plain
    end in
  (* if (trimmed.includes('/')) { ... } *)
  let slash :=
    if JsString.includes_unit 47%N trimmed then
      let parts :=
        map (fun n => Number.parseFloat (JsString.trim n))
            (JsString.split 47%N trimmed) in
      let numerator := nth 0 parts Number.NaN in
      let denominator := nth 1 parts Number.NaN in
      if negb (Number.isNaN numerator) && negb (Number.isNaN denominator)
         && negb (Number.eqb denominator Number.zero)
      then Number.div numerator denominator
      else mixed
    else mixed in
  (* if (fractionMap[trimmed]) return fractionMap[trimmed]; *)
  match lookup trimmed fractionMap with
  | Some v => if Number.truthy v then v else slash
  | None =>
      (* An inherited function or object is truthy and is returned as it
         is. The callers compare it with 0, multiply and divide by it:
         in all of these it is NaN. *)
      if inheritedKey trimmed then Number.NaN else slash
  end.

(** ** The cost engine: one line *)

(** The predicate given to [customConversions.find] by both the cost
    engine and the mismatch scan. *)
Definition conversionMatches (ingredient : Ingredient)
           (recipeUnit inventoryUnit : jsstring) (c : Conversion) : bool :=
  JsString.eqb (UnitConversion.inventoryItemId c)
               (InventoryItem.id (inventoryItem ingredient))
  && JsString.eqb (normalizeUnit (UnitConversion.fromUnit c)) recipeUnit
  && JsString.eqb (normalizeUnit (UnitConversion.toUnit c)) inventoryUnit.

(** The values of [conversionFactor], [hasUnitMismatch] and
    [usedConversion] once the unit resolution of
    [calculateIngredientCostWithConversion] is done. *)
Definition resolveUnits (ingredient : Ingredient)
           (customConversions : list Conversion)
  : number * bool * option Conversion :=
  let recipeUnit := normalizeUnit (RecipeIngredientWithInventory.unit ingredient) in
  let inventoryUnit := normalizeUnit (InventoryItem.unit (inventoryItem ingredient)) in
  if negb (JsString.eqb recipeUnit inventoryUnit) then
    match getStandardConversionFactor recipeUnit inventoryUnit with
    | Some standardConversion => (standardConversion, false, None)
    | None =>
        match find (conversionMatches ingredient recipeUnit inventoryUnit)
                   customConversions with
        | Some customConversion =>
            (Number.parseFloat (UnitConversion.conversionFactor customConversion),
             false, Some customConversion)
        | None => (Number.one, true, None)
        end
    end
  else (Number.one, false, None).

Definition calculateIngredientCostWithConversion (ingredient : Ingredient)
           (customConversions : list Conversion) : Result :=
  let recipeQuantity :=
    parseFraction (RecipeIngredientWithInventory.quantity ingredient) in
  let inventoryQuantity :=
    parseFraction (InventoryItem.unitQuantity (inventoryItem ingredient)) in
  let inventoryPrice :=
    Number.parseFloat (InventoryItem.unitPrice (inventoryItem ingredient)) in
  if Number.eqb recipeQuantity Number.zero
     || Number.eqb inventoryQuantity Number.zero
     || Number.isNaN inventoryPrice
  then CostCalculationResult.mk Number.zero false None
  else
    let '(conversionFactor, mismatch, used) :=
      resolveUnits ingredient customConversions in
    let convertedQuantity := Number.mul recipeQuantity conversionFactor in
    let costPerUnit := Number.div inventoryPrice inventoryQuantity in
    let totalCost := Number.mul costPerUnit convertedQuantity in
    CostCalculationResult.mk (if mismatch then Number.zero else totalCost)
                             mismatch used.

(** The legacy entry point. *)
Definition calculateIngredientCost (ingredient : Ingredient) : number :=
  let result := calculateIngredientCostWithConversion ingredient [] in
  cost result.

(** What the early return of [calculateIngredientCostWithConversion]
    tests. *)
Definition incompleteData (ingredient : Ingredient) : bool :=
  Number.eqb (parseFraction (RecipeIngredientWithInventory.quantity ingredient))
             Number.zero
  || Number.eqb
       (parseFraction (InventoryItem.unitQuantity (inventoryItem ingredient)))
       Number.zero
  || Number.isNaN
       (Number.parseFloat (InventoryItem.unitPrice (inventoryItem ingredient))).


(** A custom conversion authored for the line: scoped to the line's
    inventory item, from the recipe unit to the inventory unit. *)
Definition authoredFor (ingredient : Ingredient) (c : Conversion) : Prop :=
  UnitConversion.inventoryItemId c = InventoryItem.id (inventoryItem ingredient)
  /\ normalizeUnit (UnitConversion.fromUnit c)
     = normalizeUnit (RecipeIngredientWithInventory.unit ingredient)
  /\ normalizeUnit (UnitConversion.toUnit c)
     = normalizeUnit (InventoryItem.unit (inventoryItem ingredient)).

(** A custom conversion authored the other way round, from the inventory
    unit to the recipe unit. *)
Definition authoredInReverse (ingredient : Ingredient) (c : Conversion) : Prop :=
  normalizeUnit (UnitConversion.fromUnit c)
  = normalizeUnit (InventoryItem.unit (inventoryItem ingredient))
  /\ normalizeUnit (UnitConversion.toUnit c)
     = normalizeUnit (RecipeIngredientWithInventory.unit ingredient).

(** ** The cost engine: aggregation *)

(** The [for ... of] loop of [calculateRecipeCost], threading [totalCost]. *)
Fixpoint calculateRecipeCost_loop (ingredients : list Ingredient)
         (customConversions : list Conversion) (totalCost : number) : number :=
  match ingredients with
  | [] => totalCost
  | ingredient :: rest =>
      let result :=
        calculateIngredientCostWithConversion ingredient customConversions in
      calculateRecipeCost_loop rest customConversions
                               (Number.add totalCost (cost result))
  end.

Definition calculateRecipeCost (ingredients : list Ingredient)
           (customConversions : list Conversion) : number :=
  calculateRecipeCost_loop ingredients customConversions Number.zero.

(** The warning pushed for one line, if any: the body of the loop of
    [detectUnitMismatches], with [None] for the two [continue]s. *)
Definition lineWarning (ingredient : Ingredient)
           (customConversions : list Conversion) : option Warning :=
  let recipeUnit := normalizeUnit (RecipeIngredientWithInventory.unit ingredient) in
  let inventoryUnit := normalizeUnit (InventoryItem.unit (inventoryItem ingredient)) in
  if JsString.eqb recipeUnit inventoryUnit then None
  else
    match getStandardConversionFactor recipeUnit inventoryUnit with
    | Some _ => None
    | None =>
        match find (conversionMatches ingredient recipeUnit inventoryUnit)
                   customConversions with
        | Some customConversion =>
            Some
              (UnitMismatchWarning.mk
                 (InventoryItem.name (inventoryItem ingredient))
                 (RecipeIngredientWithInventory.unit ingredient)
                 (InventoryItem.unit (inventoryItem ingredient))
                 (InventoryItem.id (inventoryItem ingredient))
                 (InventoryItem.name (inventoryItem ingredient))
                 true
                 (Some customConversion))
        | None =>
            Some
              (UnitMismatchWarning.mk
                 (InventoryItem.name (inventoryItem ingredient))
                 (RecipeIngredientWithInventory.unit ingredient)
                 (InventoryItem.unit (inventoryItem ingredient))
                 (InventoryItem.id (inventoryItem ingredient))
                 (InventoryItem.name (inventoryItem ingredient))
                 false
                 None)
        end
    end.

(** The warning that identifies a line, with the given [canConvert] flag
    and attached conversion. *)
Definition warningFor (ingredient : Ingredient) (canConvert : bool)
           (conversion : option Conversion) : Warning :=
  UnitMismatchWarning.mk
    (InventoryItem.name (inventoryItem ingredient))
    (RecipeIngredientWithInventory.unit ingredient)
    (InventoryItem.unit (inventoryItem ingredient))
    (InventoryItem.id (inventoryItem ingredient))
    (InventoryItem.name (inventoryItem ingredient))
    canConvert conversion.

(** The loop of [detectUnitMismatches], threading the [warnings] array;
    [push] appends at the end. *)
Fixpoint detectUnitMismatches_loop (ingredients : list Ingredient)
         (customConversions : list Conversion) (warnings : list Warning)
  : list Warning :=
  match ingredients with
  | [] => warnings
  | ingredient :: rest =>
      detectUnitMismatches_loop rest customConversions
        match lineWarning ingredient customConversions with
        | Some w => (warnings ++ [w])%list
        | None => warnings
        end
  end.

Definition detectUnitMismatches (ingredients : list Ingredient)
           (customConversions : list Conversion) : list Warning :=
  detectUnitMismatches_loop ingredients customConversions [].

(** The sum of a list of costs, added from left to right starting
    from 0. *)
Definition sumCosts (costs : list number) : number :=
  fold_left Number.add costs Number.zero.

Definition calculateRecipeCostDetailed (ingredients : list Ingredient)
           (customConversions : list Conversion) : RecipeCostDetailed.t :=
  let ingredientCosts :=
    map (fun ingredient =>
           (ingredient,
            calculateIngredientCostWithConversion ingredient customConversions))
        ingredients in
  let totalCost :=
    fold_left (fun sum ic => Number.add sum (cost (snd ic)))
              ingredientCosts Number.zero in
  let mismatches := detectUnitMismatches ingredients customConversions in
  RecipeCostDetailed.mk
    totalCost
    ingredientCosts
    (filter (fun m => negb (canConvert m)) mismatches)
    (List.length ingredients)
    (List.length ingredients).

(** ** The other functions of the module *)

(** [String.prototype.includes] for a string needle: the needle starts at
    some position of [s]. *)
Fixpoint includesString (needle s : jsstring) : bool :=
  JsString.startsWith needle s
  || match s with
     | [] => false
     | _ :: r => includesString needle r
     end.

Definition calculateCostBreakdown (ingredients : list Ingredient)
           (customConversions : list Conversion) : list CostBreakdownLine.t :=
  map (fun ingredient =>
         let result :=
           calculateIngredientCostWithConversion ingredient customConversions in
         CostBreakdownLine.mk
           (RecipeIngredientWithInventory.quantity ingredient)
           (RecipeIngredientWithInventory.unit ingredient)
           (inventoryItem ingredient)
           (cost result)
           (hasUnitMismatch result))
      ingredients.

(** The line a breakdown entry was spread from. *)
Definition breakdownIngredient (line : CostBreakdownLine.t) : Ingredient :=
  RecipeIngredientWithInventory.mk (CostBreakdownLine.quantity line)
                                   (CostBreakdownLine.unit line)
                                   (CostBreakdownLine.inventoryItem line).

(** [None] stands for the [null] result. *)
Definition suggestConversionFactor (fromUnit toUnit itemName : jsstring)
  : option number :=
  let normFrom := normalizeUnit fromUnit in
  let normTo := normalizeUnit toUnit in
  if JsString.eqb normFrom (js "unit") && JsString.eqb normTo (js "g") then
    let lowerName := toLowerCase itemName in
    if includesString (js "ham") lowerName
       || includesString (js "meat") lowerName
    then Some (Number.lit "100")
    else if includesString (js "cheese") lowerName
    then Some (Number.lit "50")
    else if includesString (js "butter") lowerName
    then Some (Number.lit "20")
    else if includesString (js "egg") lowerName
    then Some (Number.lit "60")
    else if includesString (js "onion") lowerName
    then Some (Number.lit "150")
    else if includesString (js "garlic") lowerName
    then Some (Number.lit "5")
    else if includesString (js "lemon") lowerName
            || includesString (js "lime") lowerName
    then Some (Number.lit "50")
    else Some (Number.lit "100")
  else if JsString.eqb normFrom (js "unit") && JsString.eqb normTo (js "ml")
  then Some (Number.lit "250")
  else None.

(** The keywords [suggestConversionFactor] looks for in an item name. *)
Definition suggestionKeywords : list jsstring :=
  map js [ "ham"; "meat"; "cheese"; "butter"; "egg"; "onion"; "garlic";
           "lemon"; "lime" ]%string.

End Calculator.

(** ** The validators of the expense and budget schemas *)

(** [positiveDecimalRegex.test(val)] for
    [/^\d+(\.\d{1,2})?$/]: some split of the input into a run of digits
    and a rest lets the rest be empty, or a dot followed by one or two
    digits. *)
Definition positiveDecimalRegex_test (val : jsstring) : bool :=
  existsb
    (fun '(_, rest) =>
       match rest with
       | [] => true
       | 46%N :: fraction =>
           match fraction with
           | [a] => Number.isDigit a
           | [a; b] => Number.isDigit a && Number.isDigit b
           | _ => false
           end
       | _ => false
       end)
    (digitRuns val).

(** The [amount] field of [insertExpenseSchema]: the pattern, and the
    refinement [parseFloat(val) > 0]. A value is accepted when neither
    check raises an issue. *)
Definition amountAccepted (val : jsstring) : bool :=
  positiveDecimalRegex_test val
  && Number.ltb Number.zero (Number.parseFloat val).

(** The [weeklyBudget] field of [insertBudgetSettingsSchema] and
    [insertCategoryBudgetSchema]: the pattern, and the refinement
    [parseFloat(val) >= 0]. *)
Definition weeklyBudgetAccepted (val : jsstring) : bool :=
  positiveDecimalRegex_test val
  && Number.leb Number.zero (Number.parseFloat val).

(** ** Comparing numbers up to the sign of zero *)

(** SameValueZero on numbers: equal values, where [+0] and [-0] count as
    the same and so do two [NaN]s. *)
Definition sameValueZero (x y : number) : bool :=
  match x, y with
  | S754_nan, S754_nan => true
  | _, _ => Number.eqb x y
  end.

Definition isBlank (s : jsstring) : bool := forallb JsString.isWhiteSpace s.

Definition isDigits (s : jsstring) : bool :=
  match s with
  | [] => false
  | _ => forallb Number.isDigit s
  end.

(** A finite number greater than zero. *)
Definition isPositiveFinite (x : number) : bool :=
  match x with
  | S754_finite false _ _ => true
  | _ => false
  end.



(** What may follow the integer digits of a number for [parseFloat] to
    stop reading there: the end of the input, or a code unit that is
    neither a digit, nor a dot, nor an exponent indicator. *)
Definition stopsNumber (rest : jsstring) : bool :=
  match rest with
  | [] => true
  | c :: _ =>
      negb (Number.isDigit c) && negb (c =? 46)%N
      && negb (c =? 101)%N && negb (c =? 69)%N
  end.

(** A line with its recipe quantity, purchase quantity and purchase price
    replaced, and its units and item identity kept. *)
Definition withAmounts (ingredient : Ingredient)
           (quantity unitQuantity unitPrice : jsstring) : Ingredient :=
  RecipeIngredientWithInventory.mk
    quantity
    (RecipeIngredientWithInventory.unit ingredient)
    (InventoryItem.mk
       (InventoryItem.id (inventoryItem ingredient))
       (InventoryItem.name (inventoryItem ingredient))
       unitQuantity
       (InventoryItem.unit (inventoryItem ingredient))
       unitPrice).

(** The conversions stored for the inventory item of a line. *)
Definition conversionsOfItem (ingredient : Ingredient)
           (customConversions : list Conversion) : list Conversion :=
  filter (fun c => JsString.eqb (UnitConversion.inventoryItemId c)
                                (InventoryItem.id (inventoryItem ingredient)))
         customConversions.

(** The number of lines of a detailed result that are flagged as
    mismatched. *)
Definition flaggedCount (costs : list (Ingredient * Result)) : nat :=
  List.length (filter (fun ic => hasUnitMismatch (snd ic)) costs).

(** The factors [suggestConversionFactor] can return. *)
Definition suggestedFactors : list number :=
  map Number.lit ["100"; "50"; "20"; "60"; "150"; "5"; "250"]%string.

(** Whether a string holds a decimal digit other than 0. *)
Definition hasNonZeroDigit (val : jsstring) : bool :=
  existsb (fun c => Number.isDigit c && negb (c =? 48)%N) val.

(** A line with its two units replaced, and everything else kept. *)
Definition withUnits (ingredient : Ingredient) (unit inventoryUnit : jsstring)
  : Ingredient :=
  RecipeIngredientWithInventory.mk
    (RecipeIngredientWithInventory.quantity ingredient)
    unit
    (InventoryItem.mk
       (InventoryItem.id (inventoryItem ingredient))
       (InventoryItem.name (inventoryItem ingredient))
       (InventoryItem.unitQuantity (inventoryItem ingredient))
       inventoryUnit
       (InventoryItem.unitPrice (inventoryItem ingredient))).

(** ** Sample data *)

Definition sampleItem (unitQuantity unit unitPrice : string) : InventoryItem.t :=
  InventoryItem.mk (js "item-1") (js "Ham") (js unitQuantity) (js unit)
                   (js unitPrice).

Definition sampleLine (quantity unit : string) (item : InventoryItem.t)
  : Ingredient :=
  RecipeIngredientWithInventory.mk (js quantity) (js unit) item.

Definition sampleConversion (fromUnit toUnit conversionFactor : string)
  : Conversion :=
  UnitConversion.mk (js "conv-1") (js "item-1") (js fromUnit) (js toUnit)
                    (js conversionFactor).

(** * Properties *)

(** ** Strings *)

Lemma JsString_eqb_eq (a b : jsstring) : JsString.eqb a b = true <-> a = b.
Proof.
  revert b; induction a as [|x a IH]; destruct b as [|y b]; simpl;
    try (split; congruence).
  rewrite andb_true_iff, N.eqb_eq, IH. split.
  - intros [-> ->]; reflexivity.
  - intros H; injection H; auto.
Qed.

Lemma JsString_eqb_refl (a : jsstring) : JsString.eqb a a = true.
Proof. apply JsString_eqb_eq; reflexivity. Qed.

Lemma JsString_eqb_neq (a b : jsstring) : JsString.eqb a b = false <-> a <> b.
Proof.
  rewrite <- JsString_eqb_eq. destruct (JsString.eqb a b); split; congruence.
Qed.

Lemma isWhiteSpace_range (c : N) :
  JsString.isWhiteSpace c = true -> (c <= 32 \/ 160 <= c)%N.
Proof.
  unfold JsString.isWhiteSpace.
  rewrite !orb_true_iff, !andb_true_iff, !N.eqb_eq, !N.leb_le. lia.
Qed.

Lemma trimEnd_cons (c : N) (r : jsstring) :
  JsString.trimEnd (c :: r)
  = match JsString.trimEnd r with
    | [] => if JsString.isWhiteSpace c then [] else [c]
    | r' => c :: r'
    end.
Proof. reflexivity. Qed.

(** A lower-casing that works unit by unit satisfies what is assumed of
    [toLowerCase] as soon as it lowers the ASCII letters, maps every unit
    to a unit it leaves alone, and neither makes nor removes white
    space. *)
Section UnitByUnit.

Variable f : N -> N.

Hypothesis f_ascii : forall c, (c < 128)%N -> f c = JsString.lower_unit c.
Hypothesis f_idem : forall c, f (f c) = f c.
Hypothesis f_space :
  forall c, JsString.isWhiteSpace (f c) = JsString.isWhiteSpace c.

Lemma trimStart_map (s : jsstring) :
  JsString.trimStart (map f s) = map f (JsString.trimStart s).
Proof.
  induction s as [|c r IH]; simpl; [reflexivity|].
  rewrite f_space.
  destruct (JsString.isWhiteSpace c); [exact IH | reflexivity].
Qed.

Lemma trimEnd_map (s : jsstring) :
  JsString.trimEnd (map f s) = map f (JsString.trimEnd s).
Proof.
  induction s as [|c r IH]; [reflexivity|].
  cbn [map]. rewrite !trimEnd_cons, IH.
  destruct (JsString.trimEnd r) as [|d r'].
  - cbn [map]. rewrite f_space.
    destruct (JsString.isWhiteSpace c); reflexivity.
  - reflexivity.
Qed.

Lemma unit_by_unit_laws : @LowerCaseLaws (map f).
Proof.
  split; unfold toLowerCase.
  - intros s H. unfold JsString.lowerASCII. apply map_ext_in.
    intros c Hc. apply f_ascii.
    unfold JsString.isASCII in H. rewrite forallb_forall in H.
    apply N.ltb_lt. exact (H c Hc).
  - intros s. rewrite map_map. apply map_ext. exact f_idem.
  - intros s. unfold JsString.trim.
    rewrite trimStart_map, trimEnd_map. reflexivity.
Qed.

End UnitByUnit.

Lemma isWhiteSpace_lower (c : N) :
  JsString.isWhiteSpace (JsString.lower_unit c) = JsString.isWhiteSpace c.
Proof.
  unfold JsString.lower_unit.
  destruct ((65 <=? c)%N && (c <=? 90)%N) eqn:E; [|reflexivity].
  apply andb_true_iff in E. rewrite !N.leb_le in E.
  destruct (JsString.isWhiteSpace (c + 32)%N) eqn:E1;
    destruct (JsString.isWhiteSpace c) eqn:E2; try reflexivity.
  - apply isWhiteSpace_range in E1. lia.
  - apply isWhiteSpace_range in E2. lia.
Qed.

Lemma lower_unit_idem (c : N) :
  JsString.lower_unit (JsString.lower_unit c) = JsString.lower_unit c.
Proof.
  unfold JsString.lower_unit.
  destruct ((65 <=? c)%N && (c <=? 90)%N) eqn:E.
  - apply andb_true_iff in E. rewrite !N.leb_le in E.
    replace ((65 <=? c + 32)%N && (c + 32 <=? 90)%N) with false; [reflexivity|].
    symmetry. apply andb_false_iff. right. apply N.leb_gt. lia.
  - rewrite E. reflexivity.
Qed.

(** Lowering the ASCII letters only satisfies what is assumed of
    [toLowerCase]. *)
#[global] Instance asciiLowerCase_laws : LowerCaseLaws asciiLowerCase.
Proof.
  apply unit_by_unit_laws.
  - reflexivity.
  - exact lower_unit_idem.
  - exact isWhiteSpace_lower.
Qed.

(** The cases of [lower_unit_latin1]. *)
Lemma lower_unit_latin1_cases (c : N) :
  ((65 <= c <= 90 \/ 192 <= c <= 222 /\ c <> 215)
   /\ JsString.lower_unit_latin1 c = c + 32)%N
  \/ (c = 8490 /\ JsString.lower_unit_latin1 c = 107)%N
  \/ (c = 8491 /\ JsString.lower_unit_latin1 c = 229)%N
  \/ ((c < 65 \/ 90 < c < 192 \/ c = 215 \/ 222 < c)
      /\ c <> 8490 /\ c <> 8491 /\ JsString.lower_unit_latin1 c = c)%N.
Proof.
  unfold JsString.lower_unit_latin1.
  destruct ((65 <=? c)%N && (c <=? 90)%N) eqn:E1.
  { apply andb_true_iff in E1. rewrite !N.leb_le in E1. left. lia. }
  destruct ((192 <=? c)%N && (c <=? 222)%N && negb (c =? 215)%N) eqn:E2.
  { rewrite !andb_true_iff, negb_true_iff, !N.leb_le, N.eqb_neq in E2.
    left. lia. }
  destruct (c =? 8490)%N eqn:E3.
  { apply N.eqb_eq in E3. right. left. lia. }
  destruct (c =? 8491)%N eqn:E4.
  { apply N.eqb_eq in E4. right. right. left. lia. }
  right. right. right.
  rewrite andb_false_iff, !N.leb_gt in E1.
  rewrite !andb_false_iff, negb_false_iff, !N.leb_gt, N.eqb_eq in E2.
  rewrite N.eqb_neq in E3, E4. lia.
Qed.

Lemma latin1LowerCase_laws : LowerCaseLaws latin1LowerCase.
Proof.
  apply unit_by_unit_laws.
  - intros c Hc. unfold JsString.lower_unit.
    destruct (lower_unit_latin1_cases c) as [[H ->]|[[H _]|[[H _]|[H [_ [_ ->]]]]]];
      try lia.
    + replace ((65 <=? c)%N && (c <=? 90)%N) with true; [reflexivity|].
      symmetry. apply andb_true_iff. rewrite !N.leb_le. lia.
    + replace ((65 <=? c)%N && (c <=? 90)%N) with false; [reflexivity|].
      symmetry. apply andb_false_iff. rewrite !N.leb_gt. lia.
  - intros c.
    destruct (lower_unit_latin1_cases c) as [[H E]|[[_ E]|[[_ E]|[_ [_ [_ E]]]]]];
      rewrite E; [|reflexivity|reflexivity|exact E].
    destruct (lower_unit_latin1_cases (c + 32))
      as [[H' _]|[[H' _]|[[H' _]|[_ [_ [_ E']]]]]]; [lia|lia|lia|exact E'].
  - intros c.
    destruct (lower_unit_latin1_cases c) as [[H ->]|[[-> ->]|[[-> ->]|[_ [_ [_ ->]]]]]];
      try reflexivity.
    destruct (JsString.isWhiteSpace (c + 32)%N) eqn:E1;
      destruct (JsString.isWhiteSpace c) eqn:E2; try reflexivity; exfalso;
      [ unfold JsString.isWhiteSpace in E1 | unfold JsString.isWhiteSpace in E2 ];
      rewrite !orb_true_iff, !andb_true_iff, !N.eqb_eq, !N.leb_le in *; lia.
Qed.

Lemma trimEnd_idem (s : jsstring) :
  JsString.trimEnd (JsString.trimEnd s) = JsString.trimEnd s.
Proof.
  induction s as [|c r IH]; [reflexivity|].
  rewrite trimEnd_cons.
  destruct (JsString.trimEnd r) as [|d r'] eqn:E.
  - destruct (JsString.isWhiteSpace c) eqn:W; [reflexivity|].
    rewrite trimEnd_cons. simpl. rewrite W. reflexivity.
  - rewrite trimEnd_cons, IH. reflexivity.
Qed.

(** Trimming the end of a string that does not start with white space
    keeps its first unit, so a second [trimStart] has nothing to do. *)
Lemma trimStart_trimEnd (s : jsstring) :
  JsString.trimStart s = s ->
  JsString.trimStart (JsString.trimEnd s) = JsString.trimEnd s.
Proof.
  destruct s as [|c r]; simpl; [reflexivity|].
  destruct (JsString.isWhiteSpace c) eqn:W.
  - intros H. exfalso.
    assert (L : List.length (JsString.trimStart r) <= List.length r).
    { clear. induction r as [|d r IH]; simpl; [lia|].
      destruct (JsString.isWhiteSpace d); simpl; lia. }
    rewrite H in L. simpl in L. lia.
  - intros _. fold (JsString.trimEnd r).
    destruct (JsString.trimEnd r); simpl; rewrite W; reflexivity.
Qed.

Lemma trimStart_idem (s : jsstring) :
  JsString.trimStart (JsString.trimStart s) = JsString.trimStart s.
Proof.
  induction s as [|c r IH]; simpl; [reflexivity|].
  destruct (JsString.isWhiteSpace c) eqn:W; [exact IH|].
  simpl. rewrite W. reflexivity.
Qed.

Lemma trim_idem (s : jsstring) :
  JsString.trim (JsString.trim s) = JsString.trim s.
Proof.
  unfold JsString.trim.
  rewrite (trimStart_trimEnd (trimStart_idem s)). apply trimEnd_idem.
Qed.


Section Resolver.

Context {L : ToLowerCase} {LL : LowerCaseLaws L}.

(** The lowered and trimmed form of a string is a fixed point of
    lowering and trimming. *)
Lemma lower_trim_fixed (s : jsstring) :
  let lower := JsString.trim (toLowerCase s) in
  JsString.trim (toLowerCase lower) = lower.
Proof.
  simpl. rewrite toLowerCase_trim, toLowerCase_idem. apply trim_idem.
Qed.

(** ** Tables *)

Lemma lookup_In (A : Type) (key : jsstring) (table : list (jsstring * A)) v :
  lookup key table = Some v -> In (key, v) table.
Proof.
  induction table as [|[k w] rest IH]; simpl; [discriminate|].
  destruct (JsString.eqb key k) eqn:E.
  - apply JsString_eqb_eq in E. intros [= ->]. left. congruence.
  - intros H. right. auto.
Qed.


Lemma truthy_lookup_Some (o : option number) :
  truthy_lookup o = true -> exists f, o = Some f /\ Number.truthy f = true.
Proof. destruct o as [f|]; simpl; [eauto | discriminate]. Qed.

Lemma getStandardConversionFactor_norm (a b : jsstring) :
  getStandardConversionFactor a b
  = standardFactor (normalizeUnit a) (normalizeUnit b).
Proof. reflexivity. Qed.

(** ** Normalisation *)

Lemma normalizeUnit_loop_cases (entries : list (jsstring * list jsstring))
      (lower : jsstring) :
  normalizeUnit_loop entries lower = lower
  \/ In (normalizeUnit_loop entries lower) (map fst entries).
Proof.
  induction entries as [|[canonical spellings] rest IH]; simpl; [auto|].
  destruct (JsString.includes spellings lower); [auto|].
  destruct IH; auto.
Qed.

(** The canonical units are written in lower-case ASCII letters, without
    white space around them, and each is found by the alias loop in its
    own entry. *)
Lemma canonical_units (c : jsstring) :
  In c (map fst UNIT_ALIASES) ->
  JsString.isASCII c = true /\ JsString.lowerASCII c = c
  /\ JsString.trim c = c /\ normalizeUnit_loop UNIT_ALIASES c = c.
Proof.
  assert (H : forallb
                (fun c => JsString.isASCII c
                          && JsString.eqb (JsString.lowerASCII c) c
                          && JsString.eqb (JsString.trim c) c
                          && JsString.eqb (normalizeUnit_loop UNIT_ALIASES c) c)
                (map fst UNIT_ALIASES) = true)
    by (vm_compute; reflexivity).
  rewrite forallb_forall in H. intros Hc. specialize (H _ Hc).
  rewrite !andb_true_iff, !JsString_eqb_eq in H. tauto.
Qed.

Lemma toLowerCase_canonical (c : jsstring) :
  In c (map fst UNIT_ALIASES) -> toLowerCase c = c.
Proof.
  intros Hc. destruct (canonical_units Hc) as [Ha [Hl _]].
  rewrite toLowerCase_ascii by exact Ha. exact Hl.
Qed.

Lemma canonical_fixed (c : jsstring) :
  In c (map fst UNIT_ALIASES) -> normalizeUnit c = c.
Proof.
  intros Hc. unfold normalizeUnit. rewrite (toLowerCase_canonical Hc).
  destruct (canonical_units Hc) as [_ [_ [-> H]]]. exact H.
Qed.

(** The result of the alias loop on a lowered, trimmed string is a fixed
    point of [normalizeUnit]. *)
Lemma normalizeUnit_loop_fixed (x : jsstring) :
  let lower := JsString.trim (toLowerCase x) in
  normalizeUnit (normalizeUnit_loop UNIT_ALIASES lower)
  = normalizeUnit_loop UNIT_ALIASES lower.
Proof.
  intros lower.
  destruct (normalizeUnit_loop_cases UNIT_ALIASES lower) as [H|H].
  - rewrite H. unfold normalizeUnit, lower.
    rewrite (lower_trim_fixed x). exact H.
  - apply canonical_fixed. exact H.
Qed.

(** C9. [normalizeUnit] is idempotent: normalising an already normalised
    unit returns it unchanged, whether the first pass found a canonical
    unit in the alias table or fell back to the lowered, trimmed input. *)
Theorem normalizeUnit_idempotent (x : jsstring) :
  normalizeUnit (normalizeUnit x) = normalizeUnit x.
Proof.
  unfold normalizeUnit at 2 3. apply normalizeUnit_loop_fixed.
Qed.

Lemma getStandardConversionFactor_normalized (a b : jsstring) :
  getStandardConversionFactor (normalizeUnit a) (normalizeUnit b)
  = getStandardConversionFactor a b.
Proof.
  rewrite !getStandardConversionFactor_norm.
  unfold normalizeUnit at 2 4. rewrite !normalizeUnit_loop_fixed.
  reflexivity.
Qed.

(** ** The standard conversion table *)




End Resolver.


Lemma normalizeUnit_idempotent_witness :
  normalizeUnit (normalizeUnit (js " KiloGrams "))
  = normalizeUnit (js " KiloGrams ")
  /\ normalizeUnit (normalizeUnit (js "Foo  Bar"))
     = normalizeUnit (js "Foo  Bar").
Proof.
  split;
    apply (@normalizeUnit_idempotent asciiLowerCase asciiLowerCase_laws).
Defined.


(** ** Signs of binary64 results *)








(** ** One line *)

Section Line.

Context {L : ToLowerCase} {LL : LowerCaseLaws L}.

Lemma conversionMatches_authoredFor (ingredient : Ingredient) (c : Conversion) :
  conversionMatches ingredient
    (normalizeUnit (RecipeIngredientWithInventory.unit ingredient))
    (normalizeUnit (InventoryItem.unit (inventoryItem ingredient))) c = true
  <-> authoredFor ingredient c.
Proof.
  unfold conversionMatches, authoredFor.
  rewrite !andb_true_iff, !JsString_eqb_eq. tauto.
Qed.

(** [find] returns the first element that satisfies the predicate. *)
Lemma find_first (A : Type) (p : A -> bool) (before after : list A) (x : A) :
  (forall y, In y before -> p y = false) -> p x = true ->
  find p (before ++ x :: after) = Some x.
Proof.
  induction before as [|y before IH]; simpl; intros Hb Hx.
  - rewrite Hx. reflexivity.
  - rewrite (Hb y (or_introl eq_refl)). apply IH; auto.
Qed.

Lemma find_none_iff (A : Type) (p : A -> bool) (l : list A) :
  find p l = None <-> forall y, In y l -> p y = false.
Proof.
  split; [apply find_none|].
  induction l as [|y l IH]; simpl; intros H; [reflexivity|].
  rewrite (H y (or_introl eq_refl)). apply IH; auto.
Qed.

Lemma incomplete_result (ingredient : Ingredient) (convs : list Conversion) :
  incompleteData ingredient = true ->
  calculateIngredientCostWithConversion ingredient convs
  = CostCalculationResult.mk Number.zero false None.
Proof.
  unfold incompleteData, calculateIngredientCostWithConversion.
  intros ->. reflexivity.
Qed.

Lemma complete_result (ingredient : Ingredient) (convs : list Conversion) :
  incompleteData ingredient = false ->
  calculateIngredientCostWithConversion ingredient convs
  = let '(conversionFactor, mismatch, used) := resolveUnits ingredient convs in
    CostCalculationResult.mk
      (if mismatch then Number.zero
       else
         Number.mul
           (Number.div
              (Number.parseFloat
                 (InventoryItem.unitPrice (inventoryItem ingredient)))
              (parseFraction
                 (InventoryItem.unitQuantity (inventoryItem ingredient))))
           (Number.mul
              (parseFraction
                 (RecipeIngredientWithInventory.quantity ingredient))
              conversionFactor))
      mismatch used.
Proof.
  unfold incompleteData, calculateIngredientCostWithConversion.
  intros ->. reflexivity.
Qed.

Lemma mismatch_costs_nothing (ingredient : Ingredient) (convs : list Conversion) :
  hasUnitMismatch (calculateIngredientCostWithConversion ingredient convs) = true ->
  cost (calculateIngredientCostWithConversion ingredient convs) = Number.zero.
Proof.
  destruct (incompleteData ingredient) eqn:G.
  - rewrite (incomplete_result _ convs G). reflexivity.
  - rewrite (complete_result _ convs G).
    destruct (resolveUnits ingredient convs) as [[f mismatch] used].
    simpl. intros ->. reflexivity.
Qed.



(** ** Aggregation *)

Lemma calculateRecipeCost_loop_fold (ingredients : list Ingredient)
      (convs : list Conversion) (acc : number) :
  calculateRecipeCost_loop ingredients convs acc
  = fold_left Number.add
      (map (fun i => cost (calculateIngredientCostWithConversion i convs))
           ingredients)
      acc.
Proof.
  revert acc. induction ingredients as [|i rest IH]; intros acc; simpl;
    [reflexivity | apply IH].
Qed.

Lemma reduce_fold (ingredients : list Ingredient) (convs : list Conversion)
      (acc : number) :
  fold_left (fun sum (ic : Ingredient * Result) => Number.add sum (cost (snd ic)))
    (map (fun i => (i, calculateIngredientCostWithConversion i convs))
         ingredients)
    acc
  = fold_left Number.add
      (map (fun i => cost (calculateIngredientCostWithConversion i convs))
           ingredients)
      acc.
Proof.
  revert acc. induction ingredients as [|i rest IH]; intros acc; simpl;
    [reflexivity | apply IH].
Qed.


Lemma detectUnitMismatches_loop_flat (ingredients : list Ingredient)
      (convs : list Conversion) (warnings : list Warning) :
  detectUnitMismatches_loop ingredients convs warnings
  = (warnings
       ++ flat_map (fun i => match lineWarning i convs with
                             | Some w => [w]
                             | None => []
                             end)
                   ingredients)%list.
Proof.
  revert warnings.
  induction ingredients as [|i rest IH]; intros warnings; simpl.
  - rewrite app_nil_r. reflexivity.
  - rewrite IH. destruct (lineWarning i convs); simpl;
      [rewrite <- app_assoc|]; reflexivity.
Qed.

End Line.

(** ** Worked examples *)

Example lit_values :
  Number.lit "3" = S754_finite false 6755399441055744 (-51)
  /\ Number.lit "0.5" = S754_finite false 4503599627370496 (-53)
  /\ Number.lit "1.5" = S754_finite false 6755399441055744 (-52)
  /\ Number.lit "0.25" = S754_finite false 4503599627370496 (-54)
  /\ Number.lit "1" = Number.one.
Proof. repeat split; vm_compute; reflexivity. Qed.

Example normalizeUnit_values :
  map normalizeUnit [js " Grams "; js "KG"; js "c"; js "Tins"; js "Foo Bar"]
  = [js "g"; js "kg"; js "cup"; js "can"; js "foo bar"].
Proof. vm_compute. reflexivity. Qed.

(** 200 g of an item bought as 1000 g for 12.00 costs 2.40. *)
Example same_unit_line :
  calculateIngredientCostWithConversion
    (sampleLine "200" "g" (sampleItem "1000" "g" "12.00")) []
  = CostCalculationResult.mk (Number.lit "2.4") false None.
Proof. vm_compute. reflexivity. Qed.

(** Grams against an item bought by the unit: no cost, one actionable
    warning. *)
Example unresolved_line :
  calculateIngredientCostWithConversion
    (sampleLine "200" "g" (sampleItem "1" "unit" "12.00")) []
  = CostCalculationResult.mk Number.zero true None
  /\ map canConvert
         (detectUnitMismatches
            [sampleLine "200" "g" (sampleItem "1" "unit" "12.00")] [])
     = [false].
Proof. split; vm_compute; reflexivity. Qed.

(** The same line with a custom conversion of 0.01 unit per gram. *)
Example custom_conversion_line :
  calculateIngredientCostWithConversion
    (sampleLine "200" "g" (sampleItem "1" "unit" "12.00"))
    [sampleConversion "g" "unit" "0.01"]
  = CostCalculationResult.mk (Number.lit "24") false
                             (Some (sampleConversion "g" "unit" "0.01")).
Proof. vm_compute. reflexivity. Qed.

(** * The claims *)

(** C2. The values of the quantity parser on the five inputs of the
    specification. The first four are as stated. On ["3/0"] the guard of
    the [n/d] branch rejects the zero denominator, the mixed-number pattern
    does not match, and the final [parseFloat] reads the leading ["3"]:
    the parser returns 3, not 0. *)
Theorem parseFraction_examples :
  parseFraction (js "½") = Number.lit "0.5"
  /\ parseFraction (js "1 ½") = Number.lit "1.5"
  /\ parseFraction (js "1/4") = Number.lit "0.25"
  /\ parseFraction (js "abc") = Number.zero
  /\ parseFraction (js "3/0") = Number.lit "3"
  /\ Number.eqb (parseFraction (js "3/0")) Number.zero = false.
Proof. repeat split; vm_compute; reflexivity. Qed.

Section IncompleteData.

Context {L : ToLowerCase} {LL : LowerCaseLaws L}.

(** C6. A line with incomplete data (a recipe quantity that parses to 0, a
    purchase quantity that parses to 0, or a price that does not parse)
    costs 0 and raises no mismatch, whatever its units and whatever
    conversions are available. *)
Theorem incomplete_line_costs_nothing (ingredient : Ingredient)
        (customConversions : list Conversion) :
  Number.eqb (parseFraction (RecipeIngredientWithInventory.quantity ingredient))
             Number.zero = true
  \/ Number.eqb
       (parseFraction (InventoryItem.unitQuantity (inventoryItem ingredient)))
       Number.zero = true
  \/ Number.isNaN
       (Number.parseFloat (InventoryItem.unitPrice (inventoryItem ingredient)))
     = true ->
  calculateIngredientCostWithConversion ingredient customConversions
  = CostCalculationResult.mk Number.zero false None.
Proof.
  intros H. apply incomplete_result. unfold incompleteData.
  rewrite !orb_true_iff. tauto.
Qed.

End IncompleteData.

Lemma incomplete_line_costs_nothing_witness :
  calculateIngredientCostWithConversion
    (sampleLine "200" "g" (sampleItem "1" "unit" "n/a"))
    [sampleConversion "g" "unit" "0.01"]
  = CostCalculationResult.mk Number.zero false None.
Proof.
  apply (@incomplete_line_costs_nothing asciiLowerCase
           (sampleLine "200" "g" (sampleItem "1" "unit" "n/a"))
           [sampleConversion "g" "unit" "0.01"]).
  right. right. vm_compute. reflexivity.
Defined.

Section ReportedMismatch.

Context {L : ToLowerCase} {LL : LowerCaseLaws L}.

(** C7. A result that reports a unit mismatch reports the cost 0, whatever
    the quantities and the price are. *)
Theorem mismatch_reports_zero_cost (ingredient : Ingredient)
        (customConversions : list Conversion) :
  hasUnitMismatch
    (calculateIngredientCostWithConversion ingredient customConversions) = true ->
  cost (calculateIngredientCostWithConversion ingredient customConversions)
  = Number.zero.
Proof. apply mismatch_costs_nothing. Qed.

End ReportedMismatch.

Lemma mismatch_reports_zero_cost_witness :
  hasUnitMismatch
    (calculateIngredientCostWithConversion
       (sampleLine "200" "g" (sampleItem "1" "unit" "12.00")) []) = true
  /\ cost
       (calculateIngredientCostWithConversion
          (sampleLine "200" "g" (sampleItem "1" "unit" "12.00")) [])
     = Number.zero.
Proof.
  split; [vm_compute; reflexivity|].
  apply (@mismatch_reports_zero_cost asciiLowerCase
           (sampleLine "200" "g" (sampleItem "1" "unit" "12.00")) []).
  vm_compute. reflexivity.
Defined.

Section Totals.

Context {L : ToLowerCase} {LL : LowerCaseLaws L}.

(** C8. [calculateRecipeCost] is the sum of the costs of the lines, and
    so is the [totalCost] of [calculateRecipeCostDetailed]; both add the
    costs from left to right starting from 0. *)
Theorem recipe_cost_is_sum (ingredients : list Ingredient)
        (customConversions : list Conversion) :
  calculateRecipeCost ingredients customConversions
  = sumCosts
      (map (fun i =>
              cost (calculateIngredientCostWithConversion i customConversions))
           ingredients)
  /\ RecipeCostDetailed.totalCost
       (calculateRecipeCostDetailed ingredients customConversions)
     = sumCosts
         (map (fun i =>
                 cost (calculateIngredientCostWithConversion i customConversions))
              ingredients).
Proof.
  split.
  - apply calculateRecipeCost_loop_fold.
  - apply reduce_fold.
Qed.

(** C10. The legacy entry point returns the cost that the conversion-aware
    function computes with an empty list of custom conversions. With no
    custom conversion to consult, that cost is 0 for incomplete data,
    the price per purchase unit times the recipe quantity converted by the
    standard factor when there is one, and 0 otherwise. *)
Theorem legacy_cost_equivalent (ingredient : Ingredient) :
  calculateIngredientCost ingredient
  = cost (calculateIngredientCostWithConversion ingredient [])
  /\ calculateIngredientCost ingredient
     = if incompleteData ingredient then Number.zero
       else
         match getStandardConversionFactor
                 (RecipeIngredientWithInventory.unit ingredient)
                 (InventoryItem.unit (inventoryItem ingredient)) with
         | Some factor =>
             Number.mul
               (Number.div
                  (Number.parseFloat
                     (InventoryItem.unitPrice (inventoryItem ingredient)))
                  (parseFraction
                     (InventoryItem.unitQuantity (inventoryItem ingredient))))
               (Number.mul
                  (parseFraction
                     (RecipeIngredientWithInventory.quantity ingredient))
                  factor)
         | None => Number.zero
         end.
Proof.
  split; [reflexivity|].
  unfold calculateIngredientCost.
  destruct (incompleteData ingredient) eqn:G.
  - rewrite (incomplete_result _ [] G). reflexivity.
  - rewrite (complete_result _ [] G). unfold resolveUnits.
    rewrite getStandardConversionFactor_normalized.
    destruct (JsString.eqb _ _) eqn:E; simpl.
    + rewrite getStandardConversionFactor_norm. unfold standardFactor.
      rewrite E. reflexivity.
    + destruct (getStandardConversionFactor _ _); reflexivity.
Qed.


End Totals.

Lemma legacy_cost_equivalent_witness :
  calculateIngredientCost (sampleLine "200" "g" (sampleItem "1" "kg" "12.00"))
  = Number.mul
      (Number.div (Number.parseFloat (js "12.00")) (parseFraction (js "1")))
      (Number.mul (parseFraction (js "200")) (Number.lit "0.001")).
Proof.
  rewrite (proj2 (@legacy_cost_equivalent asciiLowerCase asciiLowerCase_laws
                    (sampleLine "200" "g" (sampleItem "1" "kg" "12.00")))).
  vm_compute. reflexivity.
Defined.



Section CustomConversions.

Context {L : ToLowerCase} {LL : LowerCaseLaws L}.

(** C4, as the code has it. For a line with complete data whose normalised
    units differ and have no standard conversion, the first custom
    conversion authored for the line's item from the recipe unit to the
    inventory unit is the one used: its parsed factor multiplies the recipe
    quantity, it is recorded as [usedConversion], and no mismatch is
    reported. A conversion authored in the reverse direction does not
    match, and a list made of such conversions leaves the line
    mismatched. *)
Theorem custom_conversion_applied (ingredient : Ingredient) :
  incompleteData ingredient = false ->
  normalizeUnit (RecipeIngredientWithInventory.unit ingredient)
  <> normalizeUnit (InventoryItem.unit (inventoryItem ingredient)) ->
  getStandardConversionFactor
    (RecipeIngredientWithInventory.unit ingredient)
    (InventoryItem.unit (inventoryItem ingredient)) = None ->
  (forall (before : list Conversion) (c : Conversion) (after : list Conversion),
      (forall c', In c' before -> ~ authoredFor ingredient c') ->
      authoredFor ingredient c ->
      calculateIngredientCostWithConversion ingredient (before ++ c :: after)
      = CostCalculationResult.mk
          (Number.mul
             (Number.div
                (Number.parseFloat
                   (InventoryItem.unitPrice (inventoryItem ingredient)))
                (parseFraction
                   (InventoryItem.unitQuantity (inventoryItem ingredient))))
             (Number.mul
                (parseFraction
                   (RecipeIngredientWithInventory.quantity ingredient))
                (Number.parseFloat (UnitConversion.conversionFactor c))))
          false (Some c))
  /\ (forall c, authoredInReverse ingredient c -> ~ authoredFor ingredient c)
  /\ (forall customConversions : list Conversion,
         (forall c, In c customConversions -> authoredInReverse ingredient c) ->
         calculateIngredientCostWithConversion ingredient customConversions
         = CostCalculationResult.mk Number.zero true None).
Proof.
  intros Hdata Hdiff Hstd.
  assert (Hrev : forall c, authoredInReverse ingredient c ->
                           ~ authoredFor ingredient c).
  { intros c [Hf _] [_ [Hf' _]]. apply Hdiff. congruence. }
  assert (Hneq : negb (JsString.eqb
                         (normalizeUnit
                            (RecipeIngredientWithInventory.unit ingredient))
                         (normalizeUnit
                            (InventoryItem.unit (inventoryItem ingredient))))
                 = true).
  { apply negb_true_iff, JsString_eqb_neq. exact Hdiff. }
  split; [|split; [exact Hrev|]].
  - intros before c after Hbefore Hc.
    rewrite (complete_result _ _ Hdata). unfold resolveUnits.
    rewrite Hneq, getStandardConversionFactor_normalized, Hstd.
    rewrite find_first; [reflexivity| |].
    + intros c' Hin.
      destruct (conversionMatches _ _ _ c') eqn:E; [|reflexivity].
      apply conversionMatches_authoredFor in E.
      exfalso. exact (Hbefore c' Hin E).
    + apply conversionMatches_authoredFor. exact Hc.
  - intros convs Hall.
    rewrite (complete_result _ _ Hdata). unfold resolveUnits.
    rewrite Hneq, getStandardConversionFactor_normalized, Hstd.
    replace (find _ convs) with (@None Conversion); [reflexivity|].
    symmetry. apply find_none_iff. intros c Hin.
    destruct (conversionMatches _ _ _ c) eqn:E; [|reflexivity].
    apply conversionMatches_authoredFor in E.
    exfalso. exact (Hrev c (Hall c Hin) E).
Qed.

End CustomConversions.

Lemma custom_conversion_applied_witness :
  calculateIngredientCostWithConversion
    (sampleLine "200" "g" (sampleItem "1" "unit" "12.00"))
    ([sampleConversion "unit" "g" "100"]
       ++ sampleConversion "g" "unit" "0.01" :: [])
  = CostCalculationResult.mk
      (Number.mul
         (Number.div (Number.parseFloat (js "12.00")) (parseFraction (js "1")))
         (Number.mul (parseFraction (js "200"))
                     (Number.parseFloat (js "0.01"))))
      false (Some (sampleConversion "g" "unit" "0.01")).
Proof.
  refine (proj1 (@custom_conversion_applied asciiLowerCase asciiLowerCase_laws
                   (sampleLine "200" "g" (sampleItem "1" "unit" "12.00"))
                   _ _ _)
                [sampleConversion "unit" "g" "100"]
                (sampleConversion "g" "unit" "0.01") [] _ _).
  - vm_compute. reflexivity.
  - vm_compute. discriminate.
  - vm_compute. reflexivity.
  - intros c' [<-|[]] [_ [H _]]. vm_compute in H. discriminate H.
  - repeat split; vm_compute; reflexivity.
Defined.

(** C4 as stated fails on a line with incomplete data. The recipe quantity
    ["0"] makes the function return before any unit is looked at: the
    units differ, there is no standard conversion, a conversion authored
    for the line is available, and yet none is recorded. *)
Lemma custom_conversion_not_recorded :
  normalizeUnit (js "g") <> normalizeUnit (js "unit")
  /\ getStandardConversionFactor (js "g") (js "unit") = None
  /\ authoredFor (sampleLine "0" "g" (sampleItem "1" "unit" "12.00"))
                 (sampleConversion "g" "unit" "0.01")
  /\ usedConversion
       (calculateIngredientCostWithConversion
          (sampleLine "0" "g" (sampleItem "1" "unit" "12.00"))
          [sampleConversion "g" "unit" "0.01"]) = None.
Proof.
  split; [vm_compute; discriminate|].
  repeat split; vm_compute; reflexivity.
Qed.

Section Scan.

Context {L : ToLowerCase} {LL : LowerCaseLaws L}.

Lemma lineWarning_resolved (i : Ingredient) (convs : list Conversion) :
  normalizeUnit (RecipeIngredientWithInventory.unit i)
  = normalizeUnit (InventoryItem.unit (inventoryItem i))
  \/ getStandardConversionFactor (RecipeIngredientWithInventory.unit i)
                                 (InventoryItem.unit (inventoryItem i))
     <> None ->
  lineWarning i convs = None.
Proof.
  unfold lineWarning. rewrite getStandardConversionFactor_normalized.
  intros [H|H].
  - rewrite H, JsString_eqb_refl. reflexivity.
  - destruct (JsString.eqb _ _); [reflexivity|].
    destruct (getStandardConversionFactor _ _); [reflexivity|congruence].
Qed.

Lemma lineWarning_unresolved (i : Ingredient) (convs : list Conversion) :
  getStandardConversionFactor (RecipeIngredientWithInventory.unit i)
                              (InventoryItem.unit (inventoryItem i)) = None ->
  lineWarning i convs
  = match find (conversionMatches i
                  (normalizeUnit (RecipeIngredientWithInventory.unit i))
                  (normalizeUnit (InventoryItem.unit (inventoryItem i))))
               convs with
    | Some c => Some (warningFor i true (Some c))
    | None => Some (warningFor i false None)
    end.
Proof.
  intros H. unfold lineWarning.
  rewrite getStandardConversionFactor_normalized, H.
  destruct (JsString.eqb _ _) eqn:E; [|reflexivity].
  rewrite getStandardConversionFactor_norm in H. unfold standardFactor in H.
  rewrite E in H. discriminate H.
Qed.

(** C5. [detectUnitMismatches] goes through the lines in order and emits
    at most one warning per line: none when the normalised units are equal
    or the standard table resolves them; otherwise a warning with
    [canConvert = true] and the matching custom conversion attached when
    one is authored for the line, and a warning with [canConvert = false]
    and no conversion when none is. The [mismatches] of
    [calculateRecipeCostDetailed] are exactly the warnings of the scan with
    [canConvert = false]. *)
Theorem mismatch_scan (ingredients : list Ingredient)
        (customConversions : list Conversion) :
  detectUnitMismatches ingredients customConversions
  = flat_map (fun i => match lineWarning i customConversions with
                       | Some w => [w]
                       | None => []
                       end)
             ingredients
  /\ (forall i : Ingredient,
         (normalizeUnit (RecipeIngredientWithInventory.unit i)
          = normalizeUnit (InventoryItem.unit (inventoryItem i))
          \/ getStandardConversionFactor
               (RecipeIngredientWithInventory.unit i)
               (InventoryItem.unit (inventoryItem i)) <> None ->
          lineWarning i customConversions = None)
         /\ (getStandardConversionFactor
               (RecipeIngredientWithInventory.unit i)
               (InventoryItem.unit (inventoryItem i)) = None ->
             (exists c, In c customConversions /\ authoredFor i c) ->
             exists c, In c customConversions /\ authoredFor i c
                       /\ lineWarning i customConversions
                          = Some (warningFor i true (Some c)))
         /\ (getStandardConversionFactor
               (RecipeIngredientWithInventory.unit i)
               (InventoryItem.unit (inventoryItem i)) = None ->
             (forall c, In c customConversions -> ~ authoredFor i c) ->
             lineWarning i customConversions
             = Some (warningFor i false None)))
  /\ RecipeCostDetailed.mismatches
       (calculateRecipeCostDetailed ingredients customConversions)
     = filter (fun m => negb (canConvert m))
              (detectUnitMismatches ingredients customConversions)
  /\ (forall w : Warning,
         In w (RecipeCostDetailed.mismatches
                 (calculateRecipeCostDetailed ingredients customConversions))
         <-> In w (detectUnitMismatches ingredients customConversions)
             /\ canConvert w = false).
Proof.
  split; [|split; [|split]].
  - unfold detectUnitMismatches.
    exact (detectUnitMismatches_loop_flat ingredients customConversions []).
  - intros i. split; [apply lineWarning_resolved|]. split.
    + intros Hstd [c [Hin Hc]]. rewrite (@lineWarning_unresolved i customConversions Hstd).
      destruct (find _ customConversions) as [c'|] eqn:F.
      * apply find_some in F. destruct F as [Hin' Hc'].
        apply conversionMatches_authoredFor in Hc'. eauto.
      * apply conversionMatches_authoredFor in Hc.
        rewrite (find_none _ _ F c Hin) in Hc. discriminate Hc.
    + intros Hstd Hnone. rewrite (@lineWarning_unresolved i customConversions Hstd).
      destruct (find _ customConversions) as [c'|] eqn:F; [|reflexivity].
      apply find_some in F. destruct F as [Hin' Hc'].
      apply conversionMatches_authoredFor in Hc'.
      exfalso. exact (Hnone c' Hin' Hc').
  - reflexivity.
  - intros w. unfold calculateRecipeCostDetailed, RecipeCostDetailed.mismatches.
    rewrite filter_In, negb_true_iff. reflexivity.
Qed.

End Scan.

Lemma mismatch_scan_witness :
  lineWarning (sampleLine "200" "g" (sampleItem "1" "unit" "12.00"))
              [sampleConversion "unit" "g" "100"]
  = Some (warningFor (sampleLine "200" "g" (sampleItem "1" "unit" "12.00"))
                     false None).
Proof.
  refine (proj2 (proj2 (proj1 (proj2
            (@mismatch_scan asciiLowerCase asciiLowerCase_laws
               [sampleLine "200" "g" (sampleItem "1" "unit" "12.00")]
               [sampleConversion "unit" "g" "100"]))
            (sampleLine "200" "g" (sampleItem "1" "unit" "12.00")))) _ _).
  - vm_compute. reflexivity.
  - intros c [<-|[]] [_ [H _]]. vm_compute in H. discriminate H.
Defined.

(** * Further properties *)

Unset Implicit Arguments.

(** ** The unit resolver *)

Section Compatibility.

Context {L : ToLowerCase} {LL : LowerCaseLaws L}.

Lemma JsString_eqb_sym (a b : jsstring) : JsString.eqb a b = JsString.eqb b a.
Proof.
  destruct (JsString.eqb a b) eqn:E; symmetry.
  - apply JsString_eqb_eq. apply JsString_eqb_eq in E. congruence.
  - apply JsString_eqb_neq. apply JsString_eqb_neq in E. congruence.
Qed.

Lemma standardFactor_resolved (na nb : jsstring) :
  standardFactor na nb <> None
  <-> JsString.eqb na nb
      || truthy_lookup (standardEntry na nb)
      || truthy_lookup (standardEntry nb na) = true.
Proof.
  unfold standardFactor.
  destruct (JsString.eqb na nb); simpl; [split; congruence|].
  destruct (truthy_lookup (standardEntry na nb)) eqn:T1; simpl.
  - apply truthy_lookup_Some in T1. destruct T1 as [f [-> _]].
    split; congruence.
  - destruct (truthy_lookup (standardEntry nb na)) eqn:T2; simpl.
    + apply truthy_lookup_Some in T2. destruct T2 as [f [-> _]].
      simpl. split; congruence.
    + split; congruence.
Qed.

Lemma areUnitsCompatible_resolved (a b : jsstring) :
  areUnitsCompatible a b
  = JsString.eqb (normalizeUnit a) (normalizeUnit b)
    || truthy_lookup (standardEntry (normalizeUnit a) (normalizeUnit b))
    || truthy_lookup (standardEntry (normalizeUnit b) (normalizeUnit a)).
Proof.
  unfold areUnitsCompatible.
  destruct (JsString.eqb _ _); [reflexivity|].
  destruct (truthy_lookup _); [reflexivity|].
  destruct (truthy_lookup _); reflexivity.
Qed.

Lemma compatible_factor_exists (a b : jsstring) :
  areUnitsCompatible a b = true ->
  exists f, getStandardConversionFactor a b = Some f.
Proof.
  rewrite areUnitsCompatible_resolved, getStandardConversionFactor_norm.
  intros H. apply standardFactor_resolved in H.
  destruct (standardFactor _ _) as [f|]; [eauto | congruence].
Qed.

(** X1. Two units are compatible exactly when a standard conversion factor
    between them is available: [areUnitsCompatible] and
    [getStandardConversionFactor] never disagree. *)
Theorem compatible_iff_factor (a b : jsstring) :
  areUnitsCompatible a b = true
  <-> getStandardConversionFactor a b <> None.
Proof.
  rewrite areUnitsCompatible_resolved, getStandardConversionFactor_norm.
  symmetry. apply standardFactor_resolved.
Qed.

(** X2. Compatibility is reflexive and symmetric, and a factor is
    available in one direction exactly when it is in the other. *)
Theorem compatibility_symmetric (a b : jsstring) :
  areUnitsCompatible a a = true
  /\ areUnitsCompatible a b = areUnitsCompatible b a
  /\ (getStandardConversionFactor a b = None
      <-> getStandardConversionFactor b a = None).
Proof.
  assert (Hsym : forall u v, areUnitsCompatible u v = areUnitsCompatible v u).
  { intros u v. rewrite !areUnitsCompatible_resolved.
    rewrite (JsString_eqb_sym (normalizeUnit v) (normalizeUnit u)).
    destruct (JsString.eqb _ _); [reflexivity|]. simpl.
    apply orb_comm. }
  split; [|split].
  - rewrite areUnitsCompatible_resolved, JsString_eqb_refl. reflexivity.
  - apply Hsym.
  - pose proof (Hsym a b) as H.
    rewrite !areUnitsCompatible_resolved in H.
    rewrite !getStandardConversionFactor_norm.
    pose proof (standardFactor_resolved (normalizeUnit a) (normalizeUnit b)) as H1.
    pose proof (standardFactor_resolved (normalizeUnit b) (normalizeUnit a)) as H2.
    rewrite H in H1.
    destruct (standardFactor (normalizeUnit a) (normalizeUnit b));
      destruct (standardFactor (normalizeUnit b) (normalizeUnit a));
      split; intros; try reflexivity; try discriminate; exfalso.
    + assert (N : @None number <> None) by (apply H2, H1; discriminate).
      congruence.
    + assert (N : @None number <> None) by (apply H1, H2; discriminate).
      congruence.
Qed.

(** Each spelling of the alias table is found in the entry that lists it
    first, and that entry is its own. *)
Lemma aliases_coherent (canonical spelling : jsstring)
      (spellings : list jsstring) :
  In (canonical, spellings) UNIT_ALIASES -> In spelling spellings ->
  normalizeUnit_loop UNIT_ALIASES spelling = canonical.
Proof.
  assert (H : forallb
                (fun '(c, sp) =>
                   forallb (fun s => JsString.eqb
                                       (normalizeUnit_loop UNIT_ALIASES s) c)
                           sp)
                UNIT_ALIASES = true)
    by (vm_compute; reflexivity).
  rewrite forallb_forall in H. intros Hin Hs.
  specialize (H _ Hin). simpl in H. rewrite forallb_forall in H.
  apply JsString_eqb_eq. exact (H _ Hs).
Qed.

(** X3. Every spelling listed in the alias table normalises to the
    canonical unit of its entry, in any letter case and with any
    surrounding white space: no spelling is captured by another entry. *)
Theorem alias_normalizes_to_canonical (canonical : jsstring)
        (spellings : list jsstring) (x : jsstring) :
  In (canonical, spellings) UNIT_ALIASES ->
  In (JsString.trim (toLowerCase x)) spellings ->
  normalizeUnit x = canonical.
Proof.
  intros Hin Hs. unfold normalizeUnit. exact (aliases_coherent canonical _ spellings Hin Hs).
Qed.

End Compatibility.

Lemma alias_normalizes_to_canonical_witness :
  normalizeUnit (js "  Kilograms ") = js "kg".
Proof.
  apply (@alias_normalizes_to_canonical asciiLowerCase
           (js "kg") (map js ["kg"; "kilo"; "kilogram"; "kilograms"]%string)
           (js "  Kilograms ")).
  - vm_compute. tauto.
  - vm_compute. tauto.
Defined.

Section CleanForm.

Context {L : ToLowerCase} {LL : LowerCaseLaws L}.

(** X4. A normalised unit is in clean form: it has no leading or trailing
    white space and it is in lower case, so trimming or lowering it again
    changes nothing. *)
Theorem normalizeUnit_clean (x : jsstring) :
  JsString.trim (normalizeUnit x) = normalizeUnit x
  /\ toLowerCase (normalizeUnit x) = normalizeUnit x.
Proof.
  unfold normalizeUnit.
  destruct (normalizeUnit_loop_cases UNIT_ALIASES
              (JsString.trim (toLowerCase x))) as [H|H].
  - rewrite H. split.
    + apply trim_idem.
    + rewrite toLowerCase_trim, toLowerCase_idem. reflexivity.
  - split.
    + apply (canonical_units H).
    + apply toLowerCase_canonical. exact H.
Qed.

Lemma trimStart_blank_app (pre s : jsstring) :
  isBlank pre = true ->
  JsString.trimStart (pre ++ s)%list = JsString.trimStart s.
Proof.
  induction pre as [|c pre IH]; simpl; [reflexivity|].
  intros H. apply andb_true_iff in H. destruct H as [-> H]. auto.
Qed.

Lemma trimEnd_blank (post : jsstring) :
  isBlank post = true -> JsString.trimEnd post = [].
Proof.
  induction post as [|c post IH]; [reflexivity|].
  simpl isBlank. intros H. apply andb_true_iff in H. destruct H as [Hc H].
  rewrite trimEnd_cons, (IH H), Hc. reflexivity.
Qed.

Lemma trimEnd_app_blank (s post : jsstring) :
  isBlank post = true ->
  JsString.trimEnd (s ++ post)%list = JsString.trimEnd s.
Proof.
  intros H. induction s as [|c s IH].
  - simpl. apply trimEnd_blank. exact H.
  - change ((c :: s) ++ post)%list with (c :: (s ++ post)%list).
    rewrite !trimEnd_cons, IH. reflexivity.
Qed.

Lemma trimStart_app_nonblank (s post : jsstring) :
  isBlank s = false ->
  JsString.trimStart (s ++ post)%list = (JsString.trimStart s ++ post)%list.
Proof.
  induction s as [|c s IH]; simpl; [discriminate|].
  destruct (JsString.isWhiteSpace c); simpl; [exact IH | reflexivity].
Qed.

Lemma trimStart_all_blank (s : jsstring) :
  isBlank s = true -> JsString.trimStart s = [].
Proof.
  induction s as [|c s IH]; simpl; [reflexivity|].
  intros H. apply andb_true_iff in H. destruct H as [-> H]. auto.
Qed.

Lemma trim_padded (pre s post : jsstring) :
  isBlank pre = true -> isBlank post = true ->
  JsString.trim (pre ++ s ++ post)%list = JsString.trim s.
Proof.
  intros Hpre Hpost. unfold JsString.trim.
  rewrite (trimStart_blank_app _ _ Hpre).
  destruct (isBlank s) eqn:Hs.
  - rewrite (trimStart_all_blank s Hs).
    rewrite trimStart_all_blank; [reflexivity|].
    unfold isBlank in *. rewrite forallb_app, Hs, Hpost. reflexivity.
  - rewrite (trimStart_app_nonblank _ _ Hs). apply trimEnd_app_blank, Hpost.
Qed.

(** X5. Units are read without regard to surrounding white space or letter
    case: padding a unit with blanks, or lowering its letters, does not
    change what it normalises to. *)
Theorem normalizeUnit_ignores_padding_and_case (pre x post : jsstring) :
  isBlank pre = true -> isBlank post = true ->
  normalizeUnit (pre ++ x ++ post)%list = normalizeUnit x
  /\ normalizeUnit (toLowerCase x) = normalizeUnit x.
Proof.
  intros Hpre Hpost. unfold normalizeUnit. split.
  - rewrite <- !toLowerCase_trim.
    rewrite (trim_padded pre x post Hpre Hpost). reflexivity.
  - rewrite toLowerCase_idem. reflexivity.
Qed.

End CleanForm.

Lemma normalizeUnit_clean_witness :
  JsString.trim (normalizeUnit (js " Foo Bar ")) = normalizeUnit (js " Foo Bar ")
  /\ toLowerCase (normalizeUnit (js " Foo Bar "))
     = normalizeUnit (js " Foo Bar ").
Proof.
  apply (@normalizeUnit_clean asciiLowerCase asciiLowerCase_laws
           (js " Foo Bar ")).
Defined.

Lemma normalizeUnit_ignores_padding_and_case_witness :
  normalizeUnit (js "  " ++ js "Cups" ++ js " ")%list = normalizeUnit (js "Cups").
Proof.
  apply (@normalizeUnit_ignores_padding_and_case
           asciiLowerCase asciiLowerCase_laws (js "  ") (js "Cups") (js " "));
    vm_compute; reflexivity.
Defined.

Section StandardFactors.

Context {L : ToLowerCase} {LL : LowerCaseLaws L}.



End StandardFactors.


Section Families.

Context {L : ToLowerCase} {LL : LowerCaseLaws L}.



End Families.


(** ** Reading numbers *)

Lemma shr_1_nonneg (mrs : shr_record) :
  (0 <= shr_m mrs)%Z -> (0 <= shr_m (shr_1 mrs))%Z.
Proof.
  destruct mrs as [m r s]. simpl.
  destruct m as [|p|p]; [intros _; simpl; lia | | intros H; lia].
  intros _. destruct p; simpl; lia.
Qed.

Lemma iter_shr_1_nonneg (n : positive) (mrs : shr_record) :
  (0 <= shr_m mrs)%Z -> (0 <= shr_m (iter_pos shr_1 n mrs))%Z.
Proof.
  revert mrs. induction n as [n IH|n IH|]; intros mrs H; simpl.
  - apply IH, IH, shr_1_nonneg, H.
  - apply IH, IH, H.
  - apply shr_1_nonneg, H.
Qed.

Lemma shr_fexp_nonneg (m e : Z) (l : location) :
  (0 <= m)%Z ->
  (0 <= shr_m (fst (shr_fexp Number.prec Number.emax m e l)))%Z.
Proof.
  intros H. unfold shr_fexp, shr.
  assert (H0 : (0 <= shr_m (shr_record_of_loc m l))%Z)
    by (destruct l as [|[]]; exact H).
  destruct (_ - e)%Z; simpl; try exact H0.
  apply iter_shr_1_nonneg, H0.
Qed.

Lemma round_nearest_even_nonneg (m : Z) (l : location) :
  (0 <= m)%Z -> (0 <= round_nearest_even m l)%Z.
Proof.
  intros H. destruct l as [|[]]; simpl; try lia.
  destruct (Z.even m); lia.
Qed.

Lemma round_aux_not_nan (s : bool) (m e : Z) (l : location) :
  (0 <= m)%Z ->
  Number.isNaN (binary_round_aux Number.prec Number.emax s m e l) = false.
Proof.
  intros H. unfold binary_round_aux.
  pose proof (shr_fexp_nonneg m e l H) as H1.
  destruct (shr_fexp Number.prec Number.emax m e l) as [mrs e'].
  simpl in H1.
  pose proof (shr_fexp_nonneg _ e' loc_Exact
                (round_nearest_even_nonneg _ (loc_of_shr_record mrs) H1)) as H2.
  destruct (shr_fexp _ _ _ e' loc_Exact) as [mrs' e''].
  simpl in H2.
  destruct (shr_m mrs'); [reflexivity | | lia].
  destruct (Z.leb _ _); reflexivity.
Qed.

Lemma div_finite_not_nan (s1 s2 : bool) (m1 m2 : positive) (e1 e2 : Z) :
  Number.isNaN
    (Number.div (S754_finite s1 m1 e1) (S754_finite s2 m2 e2)) = false.
Proof.
  unfold Number.div, SFdiv, SFdiv_core_binary.
  set (m' := match _ with Z0 => _ | Zpos _ => _ | Zneg _ => _ end).
  assert (Hm : (0 <= m')%Z).
  { unfold m'. destruct (_ - _ - _)%Z; try lia.
    apply Z.shiftl_nonneg. lia. }
  pose proof (Z_div_mod m' (Zpos m2) eq_refl) as Hd.
  destruct (Z.div_eucl m' (Zpos m2)) as [q r].
  apply round_aux_not_nan. nia.
Qed.

Lemma of_decimal_not_nan (neg : bool) (m : N) (e : Z) :
  Number.isNaN (Number.of_decimal neg m e) = false.
Proof.
  unfold Number.of_decimal. destruct m; [reflexivity|].
  destruct e; apply div_finite_not_nan.
Qed.

Lemma div_finite_sign (s : bool) (m1 m2 : positive) (e1 e2 : Z) :
  match Number.div (S754_finite s m1 e1) (S754_finite false m2 e2) with
  | S754_zero s' | S754_infinity s' | S754_finite s' _ _ => s' = s
  | S754_nan => True
  end.
Proof.
  unfold Number.div, SFdiv.
  destruct (SFdiv_core_binary _ _ _ _ _ _) as [[mz ez] lz].
  unfold binary_round_aux.
  destruct (shr_fexp _ _ _ _ _) as [mrs e'].
  destruct (shr_fexp _ _ _ _ _) as [mrs' e''].
  rewrite xorb_false_r.
  destruct (shr_m mrs'); [reflexivity| |exact I].
  destruct (Z.leb _ _); reflexivity.
Qed.

(** An unsigned decimal is read as a number that is at least 0. *)
Lemma of_decimal_unsigned (m : N) (e : Z) :
  Number.leb Number.zero (Number.of_decimal false m e) = true.
Proof.
  pose proof (of_decimal_not_nan false m e) as Hn.
  unfold Number.of_decimal in *. destruct m; [reflexivity|].
  destruct e;
    match goal with
    | |- context [Number.div ?x ?y] =>
        match x with
        | S754_finite ?s ?a ?b =>
            match y with
            | S754_finite false ?c ?d =>
                pose proof (div_finite_sign s a c b d) as Hs
            end
        end
    end;
    destruct (Number.div _ _) as [s|s| |s mm ee]; try discriminate Hn;
    subst; reflexivity.
Qed.

Lemma isDigit_range (c : N) :
  Number.isDigit c = true <-> (48 <= c <= 57)%N.
Proof.
  unfold Number.isDigit. rewrite andb_true_iff, !N.leb_le. tauto.
Qed.

Lemma isDigit_not_space (c : N) :
  Number.isDigit c = true -> JsString.isWhiteSpace c = false.
Proof.
  intros H. apply isDigit_range in H.
  destruct (JsString.isWhiteSpace c) eqn:E; [|reflexivity].
  apply isWhiteSpace_range in E. lia.
Qed.

Lemma isDigit_neqb (c k : N) :
  Number.isDigit c = true -> (k < 48 \/ 57 < k)%N -> (c =? k)%N = false.
Proof.
  intros H Hk. apply isDigit_range in H. apply N.eqb_neq. lia.
Qed.

Lemma take_sign_cons (c : N) (x : jsstring) :
  Number.take_sign (c :: x)
  = if (c =? 43)%N then (false, x)
    else if (c =? 45)%N then (true, x) else (false, c :: x).
Proof.
  destruct c as [|p]; [reflexivity|].
  do 6 (try destruct p as [p|p|]); reflexivity.
Qed.

Lemma dot_case (A : Type) (c : N) (X Y : A) :
  (c =? 46)%N = false -> match c with 46%N => X | _ => Y end = Y.
Proof.
  intros H. destruct c as [|p]; [reflexivity|].
  do 6 (try destruct p as [p|p|]); try reflexivity; discriminate H.
Qed.


Lemma span_digits_app (w r : jsstring) :
  forallb Number.isDigit w = true ->
  match r with [] => true | c :: _ => negb (Number.isDigit c) end = true ->
  Number.span_digits (w ++ r)%list = (w, r).
Proof.
  intros Hw Hr. induction w as [|c w IH]; simpl.
  - destruct r as [|c r]; [reflexivity|]. simpl.
    apply negb_true_iff in Hr. rewrite Hr. reflexivity.
  - simpl in Hw. apply andb_true_iff in Hw. destruct Hw as [Hc Hw].
    rewrite Hc, (IH Hw). reflexivity.
Qed.

Lemma startsWith_Infinity_digit (c : N) (x : jsstring) :
  Number.isDigit c = true ->
  JsString.startsWith (js "Infinity") (c :: x) = false.
Proof.
  intros H.
  change (js "Infinity") with ([73; 110; 102; 105; 110; 105; 116; 121]%N).
  cbn [JsString.startsWith].
  rewrite N.eqb_sym, (isDigit_neqb c 73 H) by lia. reflexivity.
Qed.

(** [parseFloat] on a run of digits followed by something that ends the
    number reads the digits as an integer. *)
Lemma parseFloat_digits (w r : jsstring) :
  isDigits w = true -> stopsNumber r = true ->
  Number.parseFloat (w ++ r)%list
  = Number.of_decimal false (Number.digits_value w) 0.
Proof.
  destruct w as [|c w]; [discriminate|].
  unfold isDigits. intros Hw Hr.
  pose proof Hw as Hw'. cbn [forallb] in Hw'.
  apply andb_true_iff in Hw'. destruct Hw' as [Hc _].
  unfold Number.parseFloat.
  change ((c :: w) ++ r)%list with (c :: (w ++ r)%list).
  cbn [JsString.trimStart]. rewrite (isDigit_not_space c Hc).
  rewrite take_sign_cons.
  rewrite (isDigit_neqb c 43 Hc), (isDigit_neqb c 45 Hc) by lia.
  rewrite (startsWith_Infinity_digit c _ Hc).
  change (c :: (w ++ r)%list) with ((c :: w) ++ r)%list.
  rewrite (span_digits_app (c :: w) r Hw).
  2:{ destruct r as [|d r]; [reflexivity|]. simpl in Hr.
      rewrite !andb_true_iff in Hr. tauto. }
  destruct r as [|d r].
  - cbn [app]. rewrite app_nil_r. reflexivity.
  - simpl in Hr. rewrite !andb_true_iff, !negb_true_iff in Hr.
    destruct Hr as [[[_ Hdot] He] HE].
    cbv iota. rewrite (dot_case _ d _ _ Hdot).
    unfold Number.take_exponent. rewrite He, HE. cbn [orb].
    cbn [List.length Z.of_nat Z.sub Z.opp Z.add]. rewrite app_nil_r.
    reflexivity.
Qed.

(** ** The quantity parser *)

Lemma fractionMap_key (s : jsstring) (v : number) :
  lookup s fractionMap = Some v ->
  exists g, s = [g] /\ isFractionGlyph g = true /\ Number.truthy v = true.
Proof.
  intros H. apply lookup_In in H. vm_compute in H.
  repeat (destruct H as [H|H];
          [injection H as <- <-; eexists; repeat split; reflexivity|]).
  contradiction.
Qed.





Lemma digitRuns_spec (s d r : jsstring) :
  In (d, r) (digitRuns s) ->
  s = (d ++ r)%list /\ isDigits d = true.
Proof.
  revert d r. induction s as [|c s IH]; simpl; intros d r H; [contradiction|].
  destruct (Number.isDigit c) eqn:Hc; [|contradiction].
  apply in_app_or in H. destruct H as [H|[H|[]]].
  - apply in_map_iff in H. destruct H as [[d' r'] [E H]].
    injection E as <- <-. apply IH in H. destruct H as [-> Hd].
    split; [reflexivity|]. unfold isDigits in *. simpl. rewrite Hc.
    destruct d'; [discriminate|exact Hd].
  - injection H as <- <-. split; [reflexivity|].
    unfold isDigits. simpl. rewrite Hc. reflexivity.
Qed.




Lemma trim_blank (s : jsstring) : isBlank s = true -> JsString.trim s = [].
Proof.
  intros H. unfold JsString.trim. rewrite (trimStart_all_blank s H).
  reflexivity.
Qed.

Section BlankQuantities.

Context {L : ToLowerCase} {LL : LowerCaseLaws L}.

(** X8. An empty or blank quantity is read as 0, and a line whose recipe
    quantity or purchase quantity is blank costs 0 without a mismatch. *)
Theorem blank_quantity_is_zero (s : jsstring) (ingredient : Ingredient)
        (customConversions : list Conversion) :
  isBlank s = true ->
  parseFraction s = Number.zero
  /\ (RecipeIngredientWithInventory.quantity ingredient = s
      \/ InventoryItem.unitQuantity (inventoryItem ingredient) = s ->
      calculateIngredientCostWithConversion ingredient customConversions
      = CostCalculationResult.mk Number.zero false None).
Proof.
  intros H.
  assert (Hz : parseFraction s = Number.zero).
  { unfold parseFraction. rewrite (trim_blank s H). reflexivity. }
  split; [exact Hz|].
  intros Hq. apply incomplete_result. unfold incompleteData.
  destruct Hq as [-> | ->]; rewrite Hz; simpl;
    rewrite ?orb_true_r; reflexivity.
Qed.

End BlankQuantities.

Lemma blank_quantity_is_zero_witness :
  calculateIngredientCostWithConversion
    (sampleLine "  " "g" (sampleItem "1000" "g" "12.00")) []
  = CostCalculationResult.mk Number.zero false None.
Proof.
  apply (blank_quantity_is_zero (js "  ")
           (sampleLine "  " "g" (sampleItem "1000" "g" "12.00")) []).
  - vm_compute. reflexivity.
  - left. reflexivity.
Defined.



Lemma trimStart_head (s : jsstring) :
  JsString.isWhiteSpace (hd 32%N s) = false -> JsString.trimStart s = s.
Proof. destruct s as [|c s]; simpl; [reflexivity|]. intros ->. reflexivity. Qed.

Lemma trimEnd_last (s : jsstring) :
  JsString.isWhiteSpace (last s 32%N) = false -> JsString.trimEnd s = s.
Proof.
  induction s as [|c s IH]; [reflexivity|].
  rewrite trimEnd_cons. destruct s as [|d s].
  - simpl. intros ->. reflexivity.
  - intros H. change (last (c :: d :: s) 32%N) with (last (d :: s) 32%N) in H.
    rewrite (IH H). reflexivity.
Qed.

Lemma trim_clean (s : jsstring) :
  JsString.isWhiteSpace (hd 32%N s) = false ->
  JsString.isWhiteSpace (last s 32%N) = false ->
  JsString.trim s = s.
Proof.
  intros Hh Hl. unfold JsString.trim. rewrite (trimStart_head s Hh).
  apply trimEnd_last, Hl.
Qed.

Lemma last_app_nonempty (a b : jsstring) (x : N) :
  b <> [] -> last (a ++ b)%list x = last b x.
Proof.
  intros Hb. induction a as [|c a IH]; [reflexivity|].
  change ((c :: a) ++ b)%list with (c :: (a ++ b)%list).
  destruct (a ++ b)%list as [|d r] eqn:E.
  - destruct a; [simpl in E; contradiction | discriminate E].
  - rewrite <- IH. reflexivity.
Qed.

Lemma isDigits_head (w : jsstring) :
  isDigits w = true -> Number.isDigit (hd 32%N w) = true.
Proof.
  destruct w as [|c w]; [discriminate|]. unfold isDigits. simpl.
  intros H. apply andb_true_iff in H. tauto.
Qed.

Lemma isDigits_last (w : jsstring) :
  isDigits w = true -> Number.isDigit (last w 32%N) = true.
Proof.
  destruct w as [|c w]; [discriminate|]. unfold isDigits.
  revert c. induction w as [|d w IH]; intros c H.
  - simpl in *. apply andb_true_iff in H. tauto.
  - change (last (c :: d :: w) 32%N) with (last (d :: w) 32%N).
    apply IH. simpl in H. apply andb_true_iff in H. tauto.
Qed.

Lemma isDigits_nonempty (w : jsstring) : isDigits w = true -> w <> [].
Proof. destruct w; [discriminate|]. intros _ H. discriminate H. Qed.

Lemma isDigits_all (w : jsstring) :
  isDigits w = true -> forallb Number.isDigit w = true.
Proof. destruct w; [discriminate|]. intros H. exact H. Qed.

Lemma hd_app_nonempty (a b : jsstring) (x : N) :
  a <> [] -> hd x (a ++ b)%list = hd x a.
Proof. destruct a; [contradiction|reflexivity]. Qed.

Lemma no_unit_digits (k : N) (w : jsstring) :
  (k < 48 \/ 57 < k)%N -> forallb Number.isDigit w = true ->
  existsb (N.eqb k) w = false.
Proof.
  intros Hk. induction w as [|c w IH]; simpl; [reflexivity|].
  intros H. apply andb_true_iff in H. destruct H as [Hc H].
  rewrite (IH H), N.eqb_sym, (isDigit_neqb c k Hc Hk). reflexivity.
Qed.

Lemma no_slash_blank (ws : jsstring) :
  isBlank ws = true -> existsb (N.eqb 47) ws = false.
Proof.
  unfold isBlank. induction ws as [|c ws IH]; [reflexivity|].
  cbn [forallb existsb]. intros H. apply andb_true_iff in H.
  destruct H as [Hc H]. rewrite (IH H). apply isWhiteSpace_range in Hc.
  replace (47 =? c)%N with false; [reflexivity|].
  symmetry. apply N.eqb_neq. lia.
Qed.

Lemma split_no_sep (sep : N) (s : jsstring) :
  existsb (N.eqb sep) s = false -> JsString.split sep s = [s].
Proof.
  induction s as [|c s IH]; simpl; [reflexivity|].
  intros H. apply orb_false_iff in H. destruct H as [Hc H].
  rewrite N.eqb_sym, Hc, (IH H). reflexivity.
Qed.

Lemma split_app_sep (sep : N) (a b : jsstring) :
  existsb (N.eqb sep) a = false ->
  JsString.split sep (a ++ sep :: b)%list = a :: JsString.split sep b.
Proof.
  induction a as [|c a IH]; simpl.
  - intros _. rewrite N.eqb_refl. reflexivity.
  - intros H. apply orb_false_iff in H. destruct H as [Hc H].
    rewrite N.eqb_sym, Hc, (IH H). reflexivity.
Qed.

Lemma lookup_fraction_long (c d : N) (s : jsstring) :
  lookup (c :: d :: s) fractionMap = None.
Proof.
  destruct (lookup (c :: d :: s) fractionMap) as [v|] eqn:E; [|reflexivity].
  apply fractionMap_key in E. destruct E as [g [E _]]. discriminate E.
Qed.

Lemma trim_digits (w : jsstring) : isDigits w = true -> JsString.trim w = w.
Proof.
  intros H. apply trim_clean; apply isDigit_not_space;
    [apply isDigits_head | apply isDigits_last]; exact H.
Qed.

Lemma parseFloat_digits_alone (w : jsstring) :
  isDigits w = true ->
  Number.parseFloat w = Number.of_decimal false (Number.digits_value w) 0.
Proof.
  intros H. rewrite <- (parseFloat_digits w [] H eq_refl), app_nil_r.
  reflexivity.
Qed.

(** The names of the inherited properties hold neither a slash nor a
    fraction glyph. *)
Lemma inheritedKey_plain (s : jsstring) :
  JsString.includes_unit 47%N s = true \/ existsb isFractionGlyph s = true ->
  inheritedKey s = false.
Proof.
  intros H. destruct (inheritedKey s) eqn:E; [|reflexivity]. exfalso.
  unfold inheritedKey, JsString.includes in E. apply existsb_exists in E.
  destruct E as [k [Hin Hk]]. apply JsString_eqb_eq in Hk. subst k.
  assert (Hall : forallb (fun k => negb (JsString.includes_unit 47%N k)
                                   && negb (existsb isFractionGlyph k))
                         objectPrototypeKeys = true)
    by (vm_compute; reflexivity).
  rewrite forallb_forall in Hall. specialize (Hall s Hin).
  apply andb_true_iff in Hall. rewrite !negb_true_iff in Hall.
  destruct Hall as [H1 H2]. destruct H as [H|H]; congruence.
Qed.

(** The body of the [n/d] branch once the two parts are known. *)
Lemma parseFraction_slash (trimmed a b : jsstring) :
  JsString.trim trimmed = trimmed ->
  lookup trimmed fractionMap = None ->
  JsString.includes_unit 47%N trimmed = true ->
  JsString.split 47%N trimmed = [a; b] ->
  Number.isNaN (Number.parseFloat (JsString.trim a)) = false ->
  Number.isNaN (Number.parseFloat (JsString.trim b)) = false ->
  Number.eqb (Number.parseFloat (JsString.trim b)) Number.zero = false ->
  parseFraction trimmed
  = Number.div (Number.parseFloat (JsString.trim a))
               (Number.parseFloat (JsString.trim b)).
Proof.
  intros Ht Hl Hi Hs Ha Hb Hz. unfold parseFraction. cbv zeta.
  rewrite Ht, Hl, (inheritedKey_plain trimmed (or_introl Hi)), Hi, Hs.
  cbn [map nth]. rewrite Ha, Hb, Hz. reflexivity.
Qed.

(** The quotient read from [n/d] when the denominator is not read as
    zero. *)
Lemma simple_fraction_parsed (n d : jsstring) :
  isDigits n = true -> isDigits d = true ->
  Number.eqb (Number.parseFloat d) Number.zero = false ->
  parseFraction (n ++ 47%N :: d)%list
  = Number.div (Number.parseFloat n) (Number.parseFloat d).
Proof.
  intros Hn Hd Hz.
  pose proof (isDigits_nonempty n Hn) as Hn0.
  pose proof (no_unit_digits 47 n (or_introl eq_refl) (isDigits_all n Hn)) as Hn47.
  pose proof (no_unit_digits 47 d (or_introl eq_refl) (isDigits_all d Hd)) as Hd47.
  rewrite (parseFraction_slash (n ++ 47%N :: d) n d);
    rewrite ?(trim_digits n Hn), ?(trim_digits d Hd); try assumption;
    try reflexivity.
  - apply trim_clean; apply isDigit_not_space.
    + rewrite hd_app_nonempty by assumption. apply isDigits_head, Hn.
    + rewrite last_app_nonempty by discriminate.
      change (last (47%N :: d) 32%N) with (last ([47%N] ++ d)%list 32%N).
      rewrite last_app_nonempty by (apply isDigits_nonempty, Hd).
      apply isDigits_last, Hd.
  - destruct n as [|c [|c' n]]; [contradiction| |]; apply lookup_fraction_long.
  - unfold JsString.includes_unit. rewrite existsb_app. simpl.
    rewrite orb_true_r. reflexivity.
  - rewrite (split_app_sep 47 n d Hn47), (split_no_sep 47 d Hd47).
    reflexivity.
  - rewrite (parseFloat_digits_alone n Hn). apply of_decimal_not_nan.
  - rewrite (parseFloat_digits_alone d Hd). apply of_decimal_not_nan.
Qed.

Lemma blank_head_stops (ws r : jsstring) :
  ws <> [] -> isBlank ws = true -> stopsNumber (ws ++ r)%list = true.
Proof.
  destruct ws as [|c ws]; [contradiction|]. intros _ H.
  unfold isBlank in H. cbn [forallb] in H. apply andb_true_iff in H.
  destruct H as [Hc _]. apply isWhiteSpace_range in Hc.
  cbn [app stopsNumber]. unfold Number.isDigit.
  rewrite !andb_true_iff, !negb_true_iff, !andb_false_iff, !N.leb_gt,
    !N.eqb_neq. lia.
Qed.

(** The quotient read from [w n/d]: the slash branch splits the text at
    the slash and reads the number at the head of each part. *)
Lemma mixed_ascii_fraction_parsed (w ws n d : jsstring) :
  isDigits w = true -> ws <> [] -> isBlank ws = true ->
  isDigits n = true -> isDigits d = true ->
  Number.eqb (Number.parseFloat d) Number.zero = false ->
  parseFraction (w ++ ws ++ n ++ 47%N :: d)%list
  = Number.div (Number.parseFloat w) (Number.parseFloat d).
Proof.
  intros Hw Hws0 Hws Hn Hd Hz.
  pose proof (isDigits_nonempty w Hw) as Hw0.
  pose proof (isDigits_nonempty n Hn) as Hn0.
  pose proof (isDigits_nonempty d Hd) as Hd0.
  assert (Hhead : (w ++ ws ++ n)%list <> [])
    by (destruct w; [contradiction|discriminate]).
  assert (H47 : existsb (N.eqb 47) (w ++ ws ++ n)%list = false).
  { rewrite !existsb_app. apply orb_false_iff. split;
      [|apply orb_false_iff; split].
    - exact (no_unit_digits 47 w (or_introl eq_refl) (isDigits_all w Hw)).
    - exact (no_slash_blank ws Hws).
    - exact (no_unit_digits 47 n (or_introl eq_refl) (isDigits_all n Hn)). }
  assert (Hpart : JsString.trim (w ++ ws ++ n)%list = (w ++ ws ++ n)%list).
  { apply trim_clean; apply isDigit_not_space.
    - rewrite hd_app_nonempty by assumption. apply isDigits_head, Hw.
    - rewrite app_assoc, last_app_nonempty by assumption.
      apply isDigits_last, Hn. }
  assert (Hnum : Number.parseFloat (w ++ ws ++ n)%list = Number.parseFloat w).
  { rewrite (parseFloat_digits w (ws ++ n) Hw (blank_head_stops ws n Hws0 Hws)).
    symmetry. apply parseFloat_digits_alone, Hw. }
  replace (w ++ ws ++ n ++ 47%N :: d)%list
    with ((w ++ ws ++ n) ++ 47%N :: d)%list
    by (rewrite <- !app_assoc; reflexivity).
  rewrite (parseFraction_slash ((w ++ ws ++ n) ++ 47%N :: d) (w ++ ws ++ n) d);
    rewrite ?Hpart, ?(trim_digits d Hd), ?Hnum; try assumption;
    try reflexivity.
  - apply trim_clean; apply isDigit_not_space.
    + rewrite hd_app_nonempty by assumption.
      rewrite hd_app_nonempty by assumption. apply isDigits_head, Hw.
    + rewrite last_app_nonempty by discriminate.
      change (last (47%N :: d) 32%N) with (last ([47%N] ++ d)%list 32%N).
      rewrite last_app_nonempty by assumption. apply isDigits_last, Hd.
  - destruct w as [|c [|c' w]]; [contradiction| |];
      [|apply lookup_fraction_long].
    destruct ws as [|c' ws]; [contradiction|]. apply lookup_fraction_long.
  - unfold JsString.includes_unit. rewrite existsb_app. simpl.
    rewrite orb_true_r. reflexivity.
  - rewrite (split_app_sep 47 _ d H47).
    rewrite (split_no_sep 47 d
               (no_unit_digits 47 d (or_introl eq_refl) (isDigits_all d Hd))).
    reflexivity.
  - rewrite (parseFloat_digits_alone w Hw). apply of_decimal_not_nan.
  - rewrite (parseFloat_digits_alone d Hd). apply of_decimal_not_nan.
Qed.

Lemma glyph_not_space (g : N) :
  isFractionGlyph g = true ->
  JsString.isWhiteSpace g = false /\ Number.isDigit g = false
  /\ (47 =? g)%N = false.
Proof.
  unfold isFractionGlyph. intros H. apply existsb_exists in H.
  destruct H as [x [Hin Hx]]. apply N.eqb_eq in Hx. subst x.
  vm_compute in Hin.
  repeat (destruct Hin as [Hin|Hin]; [subst g; repeat split|]).
  contradiction.
Qed.

Lemma digitRuns_head (w r : jsstring) :
  isDigits w = true ->
  match r with [] => true | c :: _ => negb (Number.isDigit c) end = true ->
  exists tl, digitRuns (w ++ r)%list = (w, r) :: tl.
Proof.
  intros Hw Hr. destruct w as [|c w]; [discriminate|].
  unfold isDigits in Hw. revert c Hw.
  induction w as [|d w IH]; intros c Hw.
  - cbn [forallb] in Hw. apply andb_true_iff in Hw. destruct Hw as [Hc _].
    cbn [app digitRuns]. rewrite Hc.
    assert (E : digitRuns r = []).
    { destruct r as [|x r]; [reflexivity|]. simpl.
      apply negb_true_iff in Hr. rewrite Hr. reflexivity. }
    rewrite E. exists []. reflexivity.
  - cbn [forallb] in Hw. apply andb_true_iff in Hw. destruct Hw as [Hc Hw].
    destruct (IH d Hw) as [tl E].
    change ((c :: d :: w) ++ r)%list with (c :: ((d :: w) ++ r)%list).
    cbn [digitRuns]. rewrite Hc, E. cbn [map app].
    eexists. reflexivity.
Qed.

Lemma spaceRuns_head (ws r : jsstring) (g : N) :
  isBlank ws = true -> JsString.isWhiteSpace g = false ->
  exists tl, spaceRuns (ws ++ g :: r)%list = (g :: r) :: tl.
Proof.
  intros Hws Hg. unfold isBlank in Hws. induction ws as [|c ws IH].
  - cbn [app spaceRuns]. rewrite Hg. exists []. reflexivity.
  - cbn [forallb] in Hws. apply andb_true_iff in Hws.
    destruct Hws as [Hc Hws]. destruct (IH Hws) as [tl E].
    cbn [app spaceRuns]. rewrite Hc, E. cbn [app]. eexists. reflexivity.
Qed.

(** X12. A whole number followed by a fraction glyph, with or without
    white space between them, is the whole number plus the value of the
    glyph. *)
Theorem mixed_glyph_is_sum (w ws : jsstring) (g : N) (v : number) :
  isDigits w = true -> isBlank ws = true ->
  lookup [g] fractionMap = Some v ->
  parseFraction (w ++ ws ++ [g])%list = Number.add (Number.parseFloat w) v.
Proof.
  intros Hw Hws Hv.
  pose proof (fractionMap_key [g] v Hv) as [g' [Eg [Hg Htruthy]]].
  injection Eg as <-.
  destruct (glyph_not_space g Hg) as [Hgs [Hgd Hg47]].
  pose proof (isDigits_nonempty w Hw) as Hw0.
  set (s := (w ++ ws ++ [g])%list).
  assert (Ht : JsString.trim s = s).
  { apply trim_clean.
    - unfold s. rewrite hd_app_nonempty by assumption.
      apply isDigit_not_space, isDigits_head, Hw.
    - unfold s. rewrite app_assoc, last_app_nonempty by discriminate.
      exact Hgs. }
  assert (Hl : lookup s fractionMap = None).
  { unfold s. destruct w as [|c [|c' w]]; [contradiction| |];
      [|apply lookup_fraction_long].
    destruct ws as [|c' ws]; apply lookup_fraction_long. }
  assert (Hi : JsString.includes_unit 47%N s = false).
  { unfold JsString.includes_unit, s. rewrite !existsb_app.
    apply orb_false_iff. split; [|apply orb_false_iff; split].
    - exact (no_unit_digits 47 w (or_introl eq_refl) (isDigits_all w Hw)).
    - exact (no_slash_blank ws Hws).
    - cbn [existsb]. rewrite Hg47. reflexivity. }
  assert (Hm : mixedMatch s
               = Some {| group1 := w; group2 := [g];
                         group3 := None; group4 := None |}).
  { unfold mixedMatch, s.
    destruct (digitRuns_head w (ws ++ [g])) as [tl E]; [exact Hw| |].
    { destruct ws as [|c ws]; simpl.
      - rewrite Hgd. reflexivity.
      - unfold isBlank in Hws. simpl in Hws. apply andb_true_iff in Hws.
        destruct Hws as [Hc _].
        destruct (Number.isDigit c) eqn:Hd; [|reflexivity].
        rewrite (isDigit_not_space c Hd) in Hc. discriminate Hc. }
    rewrite E. cbn [flat_map]. cbv beta iota.
    destruct (spaceRuns_head ws [] g Hws Hgs) as [tl' E'].
    match goal with
    | |- context [spaceRuns ?x] =>
        replace (spaceRuns x) with ([g] :: tl') by (symmetry; exact E')
    end.
    cbn [flat_map]. unfold matchGlyph. rewrite Hg. reflexivity. }
  assert (Hk : inheritedKey s = false).
  { apply inheritedKey_plain. right. unfold s. rewrite !existsb_app.
    cbn [existsb]. rewrite Hg, !orb_true_r. reflexivity. }
  unfold parseFraction. cbv zeta. fold s. rewrite Ht, Hl, Hk, Hi, Hm.
  cbn [group1 group2]. rewrite Hv, Htruthy. reflexivity.
Qed.

Lemma mixed_glyph_is_sum_witness :
  parseFraction (js "2" ++ js "  " ++ js "¾")%list
  = Number.add (Number.parseFloat (js "2")) (Number.lit "0.75").
Proof.
  apply (mixed_glyph_is_sum (js "2") (js "  ") 190%N (Number.lit "0.75"));
    vm_compute; reflexivity.
Defined.

(** ** The cost engine and the mismatch scan *)

Section Priority.

Context {L : ToLowerCase} {LL : LowerCaseLaws L}.

Lemma resolveUnits_standard (i : Ingredient) (convs : list Conversion) :
  getStandardConversionFactor (RecipeIngredientWithInventory.unit i)
                              (InventoryItem.unit (inventoryItem i))
  <> None ->
  resolveUnits i convs = resolveUnits i [].
Proof.
  intros H. unfold resolveUnits.
  rewrite getStandardConversionFactor_normalized.
  destruct (negb _); [|reflexivity].
  destruct (getStandardConversionFactor _ _); [reflexivity|congruence].
Qed.

Lemma cost_depends_on_resolveUnits (i : Ingredient)
      (convs convs' : list Conversion) :
  resolveUnits i convs = resolveUnits i convs' ->
  calculateIngredientCostWithConversion i convs
  = calculateIngredientCostWithConversion i convs'.
Proof.
  intros H. destruct (incompleteData i) eqn:G.
  - rewrite !(incomplete_result i _ G). reflexivity.
  - rewrite !(complete_result i _ G), H. reflexivity.
Qed.

(** X14. The standard table takes priority over custom conversions: when
    the units of a line are equal or resolved by the standard table, no
    custom conversion is consulted, and the result is the one computed
    without any. *)
Theorem standard_conversion_takes_priority (i : Ingredient)
        (customConversions : list Conversion) :
  getStandardConversionFactor (RecipeIngredientWithInventory.unit i)
                              (InventoryItem.unit (inventoryItem i))
  <> None ->
  calculateIngredientCostWithConversion i customConversions
  = calculateIngredientCostWithConversion i []
  /\ usedConversion
       (calculateIngredientCostWithConversion i customConversions) = None
  /\ lineWarning i customConversions = None.
Proof.
  intros H.
  assert (E : calculateIngredientCostWithConversion i customConversions
              = calculateIngredientCostWithConversion i []).
  { apply cost_depends_on_resolveUnits, resolveUnits_standard, H. }
  split; [exact E|]. split.
  - rewrite E. destruct (incompleteData i) eqn:G.
    + rewrite (incomplete_result i _ G). reflexivity.
    + rewrite (complete_result i _ G). unfold resolveUnits.
      rewrite getStandardConversionFactor_normalized.
      destruct (negb _); [|reflexivity].
      destruct (getStandardConversionFactor _ _); reflexivity.
  - apply lineWarning_resolved. right. exact H.
Qed.

End Priority.

Lemma standard_conversion_takes_priority_witness :
  calculateIngredientCostWithConversion
    (sampleLine "200" "g" (sampleItem "1" "kg" "12.00"))
    [sampleConversion "g" "kg" "5"]
  = calculateIngredientCostWithConversion
      (sampleLine "200" "g" (sampleItem "1" "kg" "12.00")) [].
Proof.
  apply (standard_conversion_takes_priority
           (sampleLine "200" "g" (sampleItem "1" "kg" "12.00"))
           [sampleConversion "g" "kg" "5"]).
  vm_compute. discriminate.
Defined.

Section ScanAndCost.

Context {L : ToLowerCase} {LL : LowerCaseLaws L}.

Lemma find_filter (A : Type) (p q : A -> bool) (l : list A) :
  (forall x, p x = true -> q x = true) ->
  find p (filter q l) = find p l.
Proof.
  intros H. induction l as [|x l IH]; simpl; [reflexivity|].
  destruct (q x) eqn:Q; simpl.
  - rewrite IH. reflexivity.
  - destruct (p x) eqn:P; [|exact IH].
    rewrite (H x P) in Q. discriminate Q.
Qed.

Lemma find_conversionsOfItem (i : Ingredient) (ru iu : jsstring)
      (convs : list Conversion) :
  find (conversionMatches i ru iu) (conversionsOfItem i convs)
  = find (conversionMatches i ru iu) convs.
Proof.
  apply find_filter. intros c H. unfold conversionMatches in H.
  rewrite !andb_true_iff in H. tauto.
Qed.

(** X15. Custom conversions are scoped to their inventory item: the cost
    of a line and the warning of the scan are the same whether or not the
    conversions stored for other items are present. *)
Theorem conversions_scoped_to_item (i : Ingredient)
        (customConversions : list Conversion) :
  calculateIngredientCostWithConversion i customConversions
  = calculateIngredientCostWithConversion
      i (conversionsOfItem i customConversions)
  /\ lineWarning i customConversions
     = lineWarning i (conversionsOfItem i customConversions).
Proof.
  split.
  - apply cost_depends_on_resolveUnits. unfold resolveUnits.
    rewrite find_conversionsOfItem. reflexivity.
  - unfold lineWarning. rewrite find_conversionsOfItem. reflexivity.
Qed.

Lemma lineWarning_cases (i : Ingredient) (convs : list Conversion) :
  lineWarning i convs
  = let '(_, mismatch, used) := resolveUnits i convs in
    if mismatch then Some (warningFor i false None)
    else match used with
         | Some c => Some (warningFor i true (Some c))
         | None => None
         end.
Proof.
  unfold lineWarning, resolveUnits.
  destruct (JsString.eqb _ _); [reflexivity|]. cbn [negb].
  destruct (getStandardConversionFactor _ _); [reflexivity|].
  destruct (find _ _); reflexivity.
Qed.

(** X16. The cost engine and the mismatch scan agree on every line with
    complete data: the result is flagged [hasUnitMismatch] exactly when the
    scan emits a warning with [canConvert = false], and it records a used
    conversion exactly when the scan attaches that conversion with
    [canConvert = true]. A line with incomplete data is never flagged and
    never records a conversion, whatever the scan says. *)
Theorem cost_flags_match_scan (i : Ingredient)
        (customConversions : list Conversion) :
  (hasUnitMismatch (calculateIngredientCostWithConversion i customConversions)
   = true
   <-> incompleteData i = false
       /\ lineWarning i customConversions = Some (warningFor i false None))
  /\ (forall c,
         usedConversion
           (calculateIngredientCostWithConversion i customConversions) = Some c
         <-> incompleteData i = false
             /\ lineWarning i customConversions
                = Some (warningFor i true (Some c))).
Proof.
  rewrite lineWarning_cases.
  destruct (incompleteData i) eqn:G.
  - rewrite (incomplete_result i _ G). simpl.
    split; [|intros c]; split; intros H; try discriminate H;
      destruct H as [H _]; discriminate H.
  - rewrite (complete_result i _ G).
    destruct (resolveUnits i customConversions) as [[f mismatch] used] eqn:R.
    simpl.
    assert (Hexcl : mismatch = true -> used = None).
    { unfold resolveUnits in R. destruct (negb _);
        [|injection R as <- <- <-; discriminate].
      destruct (getStandardConversionFactor _ _);
        [injection R as <- <- <-; discriminate|].
      destruct (find _ _); injection R as <- <- <-;
        [discriminate|reflexivity]. }
    split; [|intros c]; split.
    + intros ->. auto.
    + intros [_ H]. destruct mismatch; [reflexivity|].
      destruct used; discriminate H.
    + intros ->. split; [reflexivity|].
      destruct mismatch; [|reflexivity].
      specialize (Hexcl eq_refl). discriminate Hexcl.
    + intros [_ H]. destruct mismatch; [discriminate H|].
      destruct used as [c'|]; [|discriminate H].
      injection H as ->. reflexivity.
Qed.

Lemma line_flag_vs_warning (i : Ingredient) (convs : list Conversion) :
  let flagged :=
    List.length
      (filter (fun ic : Ingredient * Result => hasUnitMismatch (snd ic))
              [(i, calculateIngredientCostWithConversion i convs)]) in
  let warned :=
    List.length
      (filter (fun m => negb (canConvert m))
              match lineWarning i convs with
              | Some w => [w]
              | None => []
              end) in
  flagged <= warned /\ (incompleteData i = false -> flagged = warned).
Proof.
  rewrite lineWarning_cases. cbn [filter snd].
  destruct (incompleteData i) eqn:G.
  - rewrite (incomplete_result i _ G). simpl. split; [lia|discriminate].
  - rewrite (complete_result i _ G).
    destruct (resolveUnits i convs) as [[f mismatch] used].
    destruct mismatch; [simpl; split; auto|].
    destruct used; simpl; split; auto.
Qed.

(** X17. The mismatch list of [calculateRecipeCostDetailed] has at least
    as many entries as there are lines flagged [hasUnitMismatch] in its
    per-line results, and exactly as many when no line has incomplete
    data: the list is built by the scan, which also reports lines that the
    cost engine skips for missing quantities or prices. *)
Theorem detailed_mismatches_cover_flags (ingredients : list Ingredient)
        (customConversions : list Conversion) :
  let detailed := calculateRecipeCostDetailed ingredients customConversions in
  flaggedCount (RecipeCostDetailed.ingredientCosts detailed)
  <= List.length (RecipeCostDetailed.mismatches detailed)
  /\ (forallb (fun i => negb (incompleteData i)) ingredients = true ->
      flaggedCount (RecipeCostDetailed.ingredientCosts detailed)
      = List.length (RecipeCostDetailed.mismatches detailed)).
Proof.
  cbv zeta. unfold calculateRecipeCostDetailed, flaggedCount.
  cbn [RecipeCostDetailed.ingredientCosts RecipeCostDetailed.mismatches].
  unfold detectUnitMismatches.
  rewrite detectUnitMismatches_loop_flat. cbn [app].
  induction ingredients as [|i rest IH].
  - simpl. split; [lia|reflexivity].
  - cbn [map flat_map forallb].
    rewrite filter_app, length_app.
    change (filter (fun ic : Ingredient * Result => hasUnitMismatch (snd ic))
              ((i, calculateIngredientCostWithConversion i customConversions)
                 :: map (fun ingredient =>
                           (ingredient,
                            calculateIngredientCostWithConversion
                              ingredient customConversions)) rest))
      with (filter (fun ic : Ingredient * Result => hasUnitMismatch (snd ic))
              ([(i, calculateIngredientCostWithConversion i customConversions)]
                 ++ map (fun ingredient =>
                           (ingredient,
                            calculateIngredientCostWithConversion
                              ingredient customConversions)) rest)).
    rewrite filter_app, length_app.
    destruct (line_flag_vs_warning i customConversions) as [Hle Heq].
    cbv zeta in Hle, Heq. destruct IH as [IHle IHeq].
    split; [lia|].
    intros H. apply andb_true_iff in H. destruct H as [Hi Hrest].
    apply negb_true_iff in Hi. rewrite (Heq Hi), (IHeq Hrest). reflexivity.
Qed.

End ScanAndCost.

Lemma detailed_mismatches_cover_flags_witness :
  flaggedCount
    (RecipeCostDetailed.ingredientCosts
       (calculateRecipeCostDetailed
          [ sampleLine "200" "g" (sampleItem "1" "unit" "12.00");
            sampleLine "1" "cup" (sampleItem "1" "l" "3.00") ] []))
  = List.length
      (RecipeCostDetailed.mismatches
         (calculateRecipeCostDetailed
            [ sampleLine "200" "g" (sampleItem "1" "unit" "12.00");
              sampleLine "1" "cup" (sampleItem "1" "l" "3.00") ] [])).
Proof.
  apply (detailed_mismatches_cover_flags
           [ sampleLine "200" "g" (sampleItem "1" "unit" "12.00");
             sampleLine "1" "cup" (sampleItem "1" "l" "3.00") ] []).
  vm_compute. reflexivity.
Defined.

Section Breakdown.

Context {L : ToLowerCase} {LL : LowerCaseLaws L}.

(** X18. [calculateCostBreakdown] returns the lines in their order, each
    with the cost and the flag that [calculateRecipeCostDetailed] computes
    for it, and the costs of the breakdown add up to
    [calculateRecipeCost]. *)
Theorem breakdown_consistent (ingredients : list Ingredient)
        (customConversions : list Conversion) :
  let breakdown := calculateCostBreakdown ingredients customConversions in
  map breakdownIngredient breakdown = ingredients
  /\ map (fun line => (CostBreakdownLine.cost line,
                       CostBreakdownLine.hasUnitMismatch line)) breakdown
     = map (fun ic : Ingredient * Result =>
              (cost (snd ic), hasUnitMismatch (snd ic)))
           (RecipeCostDetailed.ingredientCosts
              (calculateRecipeCostDetailed ingredients customConversions))
  /\ sumCosts (map CostBreakdownLine.cost breakdown)
     = calculateRecipeCost ingredients customConversions.
Proof.
  cbv zeta. unfold calculateCostBreakdown, calculateRecipeCostDetailed.
  cbn [RecipeCostDetailed.ingredientCosts]. rewrite !map_map.
  split; [|split].
  - rewrite <- (map_id ingredients) at 2. apply map_ext.
    intros [q u it]. reflexivity.
  - apply map_ext. reflexivity.
  - unfold calculateRecipeCost, sumCosts.
    rewrite calculateRecipeCost_loop_fold. reflexivity.
Qed.

(** ** Lines that cost nothing *)

Lemma sameValueZero_refl (x : number) : sameValueZero x x = true.
Proof.
  destruct x as [s|s| |s m e]; try destruct s; try reflexivity;
    unfold sameValueZero, Number.eqb, SFeqb, SFcompare;
    rewrite Z.compare_refl, Pos.compare_cont_refl; reflexivity.
Qed.

Lemma sameValueZero_spec (x y : number) :
  sameValueZero x y = true <->
  x = y \/ (exists s s', x = S754_zero s /\ y = S754_zero s').
Proof.
  split.
  - destruct x as [s|s| |s m e]; destruct y as [s'|s'| |s' m' e'];
      try destruct s; try destruct s'; simpl; intros H;
      try discriminate H; try (left; reflexivity);
      try (right; eauto; fail).
    + unfold sameValueZero, Number.eqb, SFeqb, SFcompare in H.
      destruct (Z.compare e e') eqn:Ce; try discriminate H.
      apply Z.compare_eq in Ce. subst e'.
      destruct (Pos.compare_cont Eq m m') eqn:Cm; try discriminate H.
      apply Pos.compare_eq in Cm. subst m'. left. reflexivity.
    + unfold sameValueZero, Number.eqb, SFeqb, SFcompare in H.
      destruct (Z.compare e e') eqn:Ce; try discriminate H.
      apply Z.compare_eq in Ce. subst e'.
      destruct (Pos.compare_cont Eq m m') eqn:Cm; try discriminate H.
      apply Pos.compare_eq in Cm. subst m'. left. reflexivity.
  - intros [->|[s [s' [-> ->]]]]; [apply sameValueZero_refl|reflexivity].
Qed.

Lemma add_sameValueZero (x x' y : number) :
  sameValueZero x x' = true ->
  sameValueZero (Number.add x y) (Number.add x' y) = true.
Proof.
  intros H. apply sameValueZero_spec in H.
  destruct H as [->|[s [s' [-> ->]]]]; [apply sameValueZero_refl|].
  destruct y as [sy|sy| |sy my ey]; destruct s; destruct s';
    try destruct sy; try reflexivity; apply sameValueZero_refl.
Qed.

Lemma add_zero_sameValueZero (x : number) :
  sameValueZero (Number.add x Number.zero) x = true.
Proof.
  destruct x as [s|s| |s m e]; try destruct s; try reflexivity;
    apply sameValueZero_refl.
Qed.

Lemma fold_add_sameValueZero (costs : list number) (acc acc' : number) :
  sameValueZero acc acc' = true ->
  sameValueZero (fold_left Number.add costs acc)
                (fold_left Number.add costs acc') = true.
Proof.
  revert acc acc'. induction costs as [|c costs IH]; intros acc acc' H;
    simpl; [exact H|].
  apply IH, add_sameValueZero, H.
Qed.

(** X19. A line that costs 0, such as a mismatched line or one with
    incomplete data, contributes nothing: with or without it, at any
    position of the recipe, [calculateRecipeCost] returns the same number
    (the same value, where [+0] and [-0] are not told apart). *)
Theorem zero_cost_line_is_neutral (before after : list Ingredient)
        (i : Ingredient) (customConversions : list Conversion) :
  cost (calculateIngredientCostWithConversion i customConversions)
  = Number.zero ->
  sameValueZero
    (calculateRecipeCost (before ++ i :: after) customConversions)
    (calculateRecipeCost (before ++ after) customConversions) = true.
Proof.
  intros Hz. unfold calculateRecipeCost.
  rewrite !calculateRecipeCost_loop_fold, !map_app, !fold_left_app.
  cbn [map fold_left]. rewrite Hz.
  apply fold_add_sameValueZero, add_zero_sameValueZero.
Qed.

End Breakdown.

Lemma zero_cost_line_is_neutral_witness :
  sameValueZero
    (calculateRecipeCost
       ([sampleLine "200" "g" (sampleItem "1000" "g" "12.00")]
          ++ sampleLine "2" "bunch" (sampleItem "1" "kg" "4.00")
          :: [sampleLine "1" "cup" (sampleItem "1" "l" "3.00")]) [])
    (calculateRecipeCost
       ([sampleLine "200" "g" (sampleItem "1000" "g" "12.00")]
          ++ [sampleLine "1" "cup" (sampleItem "1" "l" "3.00")]) []) = true.
Proof.
  apply (zero_cost_line_is_neutral
           [sampleLine "200" "g" (sampleItem "1000" "g" "12.00")]
           [sampleLine "1" "cup" (sampleItem "1" "l" "3.00")]
           (sampleLine "2" "bunch" (sampleItem "1" "kg" "4.00")) []).
  vm_compute. reflexivity.
Defined.

Section Suggestions.

Context {L : ToLowerCase} {LL : LowerCaseLaws L}.

Lemma lineWarning_withAmounts (i : Ingredient) (q uq p : jsstring)
      (convs : list Conversion) :
  lineWarning (withAmounts i q uq p) convs = lineWarning i convs.
Proof. reflexivity. Qed.

(** X20. The mismatch scan reads units and item identity only: replacing
    the recipe quantities, purchase quantities and prices of the lines,
    by anything at all, leaves the warnings unchanged. *)
Theorem scan_ignores_amounts (ingredients : list Ingredient)
        (edit : Ingredient -> jsstring * jsstring * jsstring)
        (customConversions : list Conversion) :
  detectUnitMismatches
    (map (fun i => let '(q, uq, p) := edit i in withAmounts i q uq p)
         ingredients)
    customConversions
  = detectUnitMismatches ingredients customConversions.
Proof.
  unfold detectUnitMismatches. rewrite !detectUnitMismatches_loop_flat.
  cbn [app]. induction ingredients as [|i rest IH]; [reflexivity|].
  cbn [map flat_map]. rewrite IH.
  destruct (edit i) as [[q uq] p]. rewrite lineWarning_withAmounts.
  reflexivity.
Qed.

(** ** The conversion suggestion *)

(** X21. A factor is suggested exactly for conversions from a count unit
    (any spelling of "unit") to grams or to millilitres, never for the
    reverse direction or any other pair; for millilitres it is 250 whatever
    the item is called. *)
Theorem suggestion_domain (fromUnit toUnit itemName : jsstring) :
  (suggestConversionFactor fromUnit toUnit itemName <> None
   <-> normalizeUnit fromUnit = js "unit"
       /\ (normalizeUnit toUnit = js "g" \/ normalizeUnit toUnit = js "ml"))
  /\ (normalizeUnit fromUnit = js "unit" -> normalizeUnit toUnit = js "ml" ->
      suggestConversionFactor fromUnit toUnit itemName
      = Some (Number.lit "250")).
Proof.
  unfold suggestConversionFactor.
  destruct (JsString.eqb (normalizeUnit fromUnit) (js "unit")) eqn:Ef.
  - apply JsString_eqb_eq in Ef. rewrite Ef. cbn [andb].
    destruct (JsString.eqb (normalizeUnit toUnit) (js "g")) eqn:Eg.
    + apply JsString_eqb_eq in Eg. rewrite Eg. split.
      * split; [auto|]. intros _.
        repeat match goal with
               | |- context [if ?b then _ else _] => destruct b
               end; discriminate.
      * intros _ H. vm_compute in H. discriminate H.
    + destruct (JsString.eqb (normalizeUnit toUnit) (js "ml")) eqn:Em.
      * apply JsString_eqb_eq in Em. rewrite Em. split; [|reflexivity].
        split; [auto|discriminate].
      * apply JsString_eqb_neq in Eg, Em. split.
        -- split; [congruence|]. intros [_ [H|H]]; contradiction.
        -- intros _ H. contradiction.
  - cbn [andb]. apply JsString_eqb_neq in Ef. split.
    + split; [congruence|]. intros [H _]. contradiction.
    + intros H. contradiction.
Qed.

(** X22. A suggested factor is one of 100, 50, 20, 60, 150, 5 and 250,
    hence a finite number greater than zero; for grams it is 100 when the
    item name holds none of the keywords. *)
Theorem suggestion_values (fromUnit toUnit itemName : jsstring) :
  (forall v, suggestConversionFactor fromUnit toUnit itemName = Some v ->
             In v suggestedFactors /\ isPositiveFinite v = true)
  /\ (normalizeUnit fromUnit = js "unit" -> normalizeUnit toUnit = js "g" ->
      forallb (fun k => negb (includesString
                                k (toLowerCase itemName)))
              suggestionKeywords = true ->
      suggestConversionFactor fromUnit toUnit itemName
      = Some (Number.lit "100")).
Proof.
  split.
  - intros v. unfold suggestConversionFactor.
    repeat match goal with
           | |- context [if ?b then _ else _] => destruct b
           end;
      intros H; try discriminate H; injection H as <-;
      (split; [vm_compute; tauto | vm_compute; reflexivity]).
  - intros Hf Hg Hk. unfold suggestConversionFactor.
    rewrite Hf, Hg. rewrite !JsString_eqb_refl. cbn [andb].
    unfold suggestionKeywords in Hk. cbn [map forallb] in Hk.
    rewrite !andb_true_iff, !negb_true_iff in Hk.
    destruct Hk as (H1 & H2 & H3 & H4 & H5 & H6 & H7 & H8 & H9 & _).
    rewrite H1, H2, H3, H4, H5, H6, H7, H8, H9. reflexivity.
Qed.

End Suggestions.

Lemma suggestion_values_witness :
  suggestConversionFactor (js "each") (js "grams") (js "Flour")
  = Some (Number.lit "100").
Proof.
  apply (suggestion_values (js "each") (js "grams") (js "Flour"));
    vm_compute; reflexivity.
Defined.

(** ** The amount and budget validators *)

Lemma span_digits_alone (f : jsstring) :
  forallb Number.isDigit f = true -> Number.span_digits f = (f, []).
Proof.
  intros H. rewrite <- (app_nil_r f) at 1.
  apply span_digits_app; [exact H|reflexivity].
Qed.

(** [parseFloat] on digits, a dot and more digits reads the decimal. *)
Lemma parseFloat_decimal (w f : jsstring) :
  isDigits w = true -> isDigits f = true ->
  Number.parseFloat (w ++ 46%N :: f)%list
  = Number.of_decimal false (Number.digits_value (w ++ f)%list)
                      (- Z.of_nat (List.length f)).
Proof.
  destruct w as [|c w]; [discriminate|].
  unfold isDigits at 1. intros Hw Hf.
  pose proof Hw as Hw'. cbn [forallb] in Hw'.
  apply andb_true_iff in Hw'. destruct Hw' as [Hc _].
  unfold Number.parseFloat.
  change ((c :: w) ++ 46%N :: f)%list with (c :: (w ++ 46%N :: f)%list).
  cbn [JsString.trimStart]. rewrite (isDigit_not_space c Hc).
  rewrite take_sign_cons.
  rewrite (isDigit_neqb c 43 Hc), (isDigit_neqb c 45 Hc) by lia.
  rewrite (startsWith_Infinity_digit c _ Hc).
  change (c :: (w ++ 46%N :: f)%list) with ((c :: w) ++ 46%N :: f)%list.
  rewrite (span_digits_app (c :: w) (46%N :: f) Hw eq_refl).
  cbv iota.
  rewrite (span_digits_alone f (isDigits_all f Hf)).
  destruct f as [|d f]; [discriminate|].
  cbv iota. cbn [Number.take_exponent Z.sub Z.add Z.opp].
  reflexivity.
Qed.

(** What the pattern accepts: digits, or digits, a dot and one or two
    digits. *)
Lemma positiveDecimalRegex_shape (val : jsstring) :
  positiveDecimalRegex_test val = true ->
  exists w f,
    isDigits w = true
    /\ (val = w /\ f = []
        \/ val = (w ++ 46%N :: f)%list /\ isDigits f = true
           /\ List.length f <= 2).
Proof.
  unfold positiveDecimalRegex_test. intros H.
  apply existsb_exists in H. destruct H as [[w rest] [Hin H]].
  apply digitRuns_spec in Hin. destruct Hin as [-> Hw].
  exists w. destruct rest as [|c fraction].
  - exists []. split; [exact Hw|]. left. rewrite app_nil_r. auto.
  - destruct (c =? 46)%N eqn:Hc.
    + apply N.eqb_eq in Hc. subst c. exists fraction.
      split; [exact Hw|]. right. split; [reflexivity|].
      destruct fraction as [|a [|b [|x fraction]]]; try discriminate H.
      * unfold isDigits. simpl. rewrite H. auto.
      * apply andb_true_iff in H. destruct H as [Ha Hb].
        unfold isDigits. simpl. rewrite Ha, Hb. auto.
    + rewrite (dot_case _ c _ _ Hc) in H. discriminate H.
Qed.

Lemma positiveDecimalRegex_value (val : jsstring) :
  positiveDecimalRegex_test val = true ->
  exists m e, Number.parseFloat val = Number.of_decimal false m e.
Proof.
  intros H. apply positiveDecimalRegex_shape in H.
  destruct H as [w [f [Hw [[-> _]|[-> [Hf _]]]]]].
  - rewrite (parseFloat_digits_alone w Hw). eauto.
  - rewrite (parseFloat_decimal w f Hw Hf). eauto.
Qed.

(** X23. Every value that matches the decimal pattern parses to a number
    that is at least 0, so the refinement [parseFloat(val) >= 0] of the
    weekly budget fields never rejects anything: a budget is accepted
    exactly when it matches the pattern. *)
Theorem weeklyBudget_refinement_redundant (val : jsstring) :
  weeklyBudgetAccepted val = positiveDecimalRegex_test val.
Proof.
  unfold weeklyBudgetAccepted.
  destruct (positiveDecimalRegex_test val) eqn:H; [|reflexivity].
  apply positiveDecimalRegex_value in H. destruct H as [m [e ->]].
  rewrite of_decimal_unsigned. reflexivity.
Qed.

(** *** Decimals that are not zero do not round to zero *)

Lemma digits2_pos_bounds (p : positive) :
  (2 ^ (Zpos (digits2_pos p) - 1) <= Zpos p < 2 ^ Zpos (digits2_pos p))%Z.
Proof.
  induction p as [p IH|p IH|]; cbn [digits2_pos].
  - rewrite Pos2Z.inj_succ.
    replace (Z.succ (Zpos (digits2_pos p)) - 1)%Z
      with (Z.succ (Zpos (digits2_pos p) - 1))%Z by lia.
    rewrite !Z.pow_succ_r by lia. lia.
  - rewrite Pos2Z.inj_succ.
    replace (Z.succ (Zpos (digits2_pos p)) - 1)%Z
      with (Z.succ (Zpos (digits2_pos p) - 1))%Z by lia.
    rewrite !Z.pow_succ_r by lia. lia.
  - simpl. lia.
Qed.

Lemma shr_1_half (mrs : shr_record) :
  (0 <= shr_m mrs)%Z -> shr_m (shr_1 mrs) = (shr_m mrs / 2)%Z.
Proof.
  destruct mrs as [m r s]. cbn [shr_m shr_1].
  destruct m as [|p|p]; [reflexivity| |lia]. intros _.
  destruct p as [p|p|]; cbn [shr_m].
  - rewrite Pos2Z.inj_xI.
    apply Z.div_unique with (r := 1%Z); lia.
  - rewrite Pos2Z.inj_xO.
    apply Z.div_unique with (r := 0%Z); lia.
  - reflexivity.
Qed.

Lemma pow2_xI (n : positive) :
  (2 ^ Zpos n~1 = 2 * (2 ^ Zpos n * 2 ^ Zpos n))%Z.
Proof.
  replace (Zpos n~1) with (1 + (Zpos n + Zpos n))%Z by lia.
  rewrite 2 Z.pow_add_r by lia. reflexivity.
Qed.

Lemma pow2_xO (n : positive) :
  (2 ^ Zpos n~0 = 2 ^ Zpos n * 2 ^ Zpos n)%Z.
Proof.
  replace (Zpos n~0) with (Zpos n + Zpos n)%Z by lia.
  rewrite Z.pow_add_r by lia. reflexivity.
Qed.

Lemma iter_shr_1_div (n : positive) (mrs : shr_record) :
  (0 <= shr_m mrs)%Z ->
  shr_m (iter_pos shr_1 n mrs) = (shr_m mrs / 2 ^ Zpos n)%Z.
Proof.
  revert mrs. induction n as [n IH|n IH|]; intros mrs H; cbn [iter_pos].
  - assert (Hp : (0 < 2 ^ Zpos n)%Z) by (apply Z.pow_pos_nonneg; lia).
    rewrite IH by (apply iter_shr_1_nonneg, shr_1_nonneg, H).
    rewrite IH by (apply shr_1_nonneg, H).
    rewrite shr_1_half by exact H.
    rewrite pow2_xI, !Z.div_div by lia.
    rewrite Z.mul_assoc. reflexivity.
  - assert (Hp : (0 < 2 ^ Zpos n)%Z) by (apply Z.pow_pos_nonneg; lia).
    rewrite IH by (apply iter_shr_1_nonneg, H).
    rewrite IH by exact H.
    rewrite pow2_xO, !Z.div_div by lia. reflexivity.
  - rewrite shr_1_half by exact H. reflexivity.
Qed.

Lemma shr_record_of_loc_m (m : Z) (l : location) :
  shr_m (shr_record_of_loc m l) = m.
Proof. destruct l as [|[]]; reflexivity. Qed.

(** A positive mantissa above the smallest exponent stays positive
    through the shift of [shr_fexp], and the new exponent is at least the
    smallest one. *)
Lemma shr_fexp_positive (p : positive) (e : Z) (l : location) :
  (emin Number.prec Number.emax < Zpos (digits2_pos p) + e)%Z ->
  (0 < shr_m (fst (shr_fexp Number.prec Number.emax (Zpos p) e l)))%Z
  /\ (emin Number.prec Number.emax
      <= snd (shr_fexp Number.prec Number.emax (Zpos p) e l))%Z.
Proof.
  intros H. unfold shr_fexp, shr. cbn [Zdigits2].
  pose proof (digits2_pos_bounds p) as [Hlo _].
  set (d := Zpos (digits2_pos p)) in *.
  assert (Hfexp : (fexp Number.prec Number.emax (d + e)
                   = Z.max (d + e - 53) (emin Number.prec Number.emax))%Z)
    by reflexivity.
  destruct (fexp Number.prec Number.emax (d + e) - e)%Z as [|n|n] eqn:En;
    cbn [fst snd].
  - rewrite shr_record_of_loc_m. split; lia.
  - rewrite iter_shr_1_div by (rewrite shr_record_of_loc_m; lia).
    rewrite shr_record_of_loc_m. split; [|lia].
    apply Z.div_str_pos. split; [apply Z.pow_pos_nonneg; lia|].
    apply Z.le_trans with (2 ^ (d - 1))%Z; [|exact Hlo].
    apply Z.pow_le_mono_r; lia.
  - rewrite shr_record_of_loc_m. split; lia.
Qed.

Lemma round_aux_positive (s : bool) (p : positive) (e : Z) (l : location) :
  (emin Number.prec Number.emax < Zpos (digits2_pos p) + e)%Z ->
  match binary_round_aux Number.prec Number.emax s (Zpos p) e l with
  | S754_finite s' _ _ | S754_infinity s' => s' = s
  | _ => False
  end.
Proof.
  intros H. unfold binary_round_aux.
  destruct (shr_fexp_positive p e l H) as [H1 H2].
  destruct (shr_fexp Number.prec Number.emax (Zpos p) e l) as [mrs e'].
  cbn [fst snd] in H1, H2.
  assert (Hr : (0 < round_nearest_even (shr_m mrs) (loc_of_shr_record mrs))%Z).
  { destruct (loc_of_shr_record mrs) as [|[]]; simpl; try lia.
    destruct (Z.even _); lia. }
  destruct (round_nearest_even (shr_m mrs) (loc_of_shr_record mrs))
    as [|q|q]; try lia.
  assert (H3 : (emin Number.prec Number.emax < Zpos (digits2_pos q) + e')%Z)
    by lia.
  destruct (shr_fexp_positive q e' loc_Exact H3) as [H4 _].
  destruct (shr_fexp Number.prec Number.emax (Zpos q) e' loc_Exact)
    as [mrs' e''].
  cbn [fst] in H4.
  destruct (shr_m mrs'); try lia.
  destruct (Z.leb _ _); reflexivity.
Qed.

(** The quotient of two positive integers is a positive number. *)
Lemma div_integers_positive (p q : positive) :
  (Zpos (digits2_pos q) <= 1000)%Z ->
  Number.ltb Number.zero
             (Number.div (S754_finite false p 0) (S754_finite false q 0))
  = true.
Proof.
  intros Hq. unfold Number.div, SFdiv, SFdiv_core_binary. cbn [Zdigits2].
  pose proof (digits2_pos_bounds p) as [Hp _].
  pose proof (digits2_pos_bounds q) as [_ Hq'].
  set (d1 := Zpos (digits2_pos p)) in *.
  set (d2 := Zpos (digits2_pos q)) in *.
  assert (Hd1 : (1 <= d1)%Z) by (unfold d1; lia).
  set (e' := Z.min (fexp Number.prec Number.emax (d1 + 0 - (d2 + 0))) (0 - 0)).
  assert (He' : (e' = Z.min (Z.max (d1 - d2 - 53) (-1074)) 0)%Z).
  { unfold e', fexp, emin, Number.prec, Number.emax. lia. }
  set (m' := match (0 - 0 - e')%Z with
             | Z0 => Zpos p
             | Zpos _ => Z.shiftl (Zpos p) (0 - 0 - e')
             | Zneg _ => 0%Z
             end).
  assert (Hm : (m' = Zpos p * 2 ^ (- e'))%Z).
  { unfold m'. replace (0 - 0 - e')%Z with (- e')%Z by lia.
    destruct (- e')%Z as [|n|n] eqn:En; [simpl; lia| |lia].
    rewrite Z.shiftl_mul_pow2 by lia. reflexivity. }
  assert (Hge : (Zpos q <= m')%Z).
  { rewrite Hm.
    apply Z.le_trans with (2 ^ d2)%Z; [lia|].
    apply Z.le_trans with (2 ^ (d1 - 1) * 2 ^ (- e'))%Z.
    - rewrite <- Z.pow_add_r by lia. apply Z.pow_le_mono_r; lia.
    - apply Z.mul_le_mono_nonneg_r; [apply Z.pow_nonneg; lia | exact Hp]. }
  pose proof (Z_div_mod m' (Zpos q) eq_refl) as Hdiv.
  destruct (Z.div_eucl m' (Zpos q)) as [qz r].
  assert (Hqz : (0 < qz)%Z) by nia.
  destruct qz as [|qz|qz]; try lia.
  rewrite xorb_false_r.
  assert (Hexp : (emin Number.prec Number.emax < Zpos (digits2_pos qz) + e')%Z).
  { unfold emin, Number.prec, Number.emax. lia. }
  pose proof (round_aux_positive false qz e'
                (new_location (Zpos q) r) Hexp) as Hr.
  destruct (binary_round_aux _ _ _ _ _ _) as [s|s| |s m e];
    try contradiction; subst; reflexivity.
Qed.

Lemma of_decimal_positive (p : positive) (e : Z) :
  (-2 <= e)%Z ->
  Number.ltb Number.zero (Number.of_decimal false (Npos p) e) = true.
Proof.
  intros He. unfold Number.of_decimal. destruct e as [|k|k].
  - apply div_integers_positive. simpl. lia.
  - apply div_integers_positive. simpl. lia.
  - assert (Hk : k = 1%positive \/ k = 2%positive) by lia.
    destruct Hk as [-> | ->]; apply div_integers_positive; simpl; lia.
Qed.

Lemma digits_fold_zero (ds : jsstring) (acc : N) :
  forallb Number.isDigit ds = true ->
  (fold_left (fun acc c => (10 * acc + (c - 48))%N) ds acc = 0%N
   <-> acc = 0%N /\ hasNonZeroDigit ds = false).
Proof.
  unfold hasNonZeroDigit. revert acc.
  induction ds as [|c ds IH]; intros acc H; cbn [fold_left existsb].
  - tauto.
  - cbn [forallb] in H. apply andb_true_iff in H. destruct H as [Hc H].
    rewrite (IH _ H), Hc. cbn [andb].
    apply isDigit_range in Hc.
    rewrite orb_false_iff, negb_false_iff, N.eqb_eq.
    split.
    + intros [Ha Hr]. repeat split; [lia | lia | exact Hr].
    + intros [Ha [Hc0 Hr]]. split; [lia | exact Hr].
Qed.

Lemma ltb_zero_of_decimal (ds : jsstring) (e : Z) :
  forallb Number.isDigit ds = true -> (-2 <= e)%Z ->
  Number.ltb Number.zero (Number.of_decimal false (Number.digits_value ds) e)
  = hasNonZeroDigit ds.
Proof.
  intros Hd He. pose proof (digits_fold_zero ds 0 Hd) as Hz.
  fold (Number.digits_value ds) in Hz.
  destruct (Number.digits_value ds) as [|p] eqn:E.
  - destruct Hz as [Hz _]. destruct (Hz eq_refl) as [_ ->]. reflexivity.
  - rewrite (of_decimal_positive p e He).
    destruct (hasNonZeroDigit ds) eqn:Hn; [reflexivity|].
    destruct Hz as [_ Hz]. discriminate (Hz (conj eq_refl eq_refl)).
Qed.

(** X24. An expense amount is accepted exactly when it matches the decimal
    pattern and one of its digits is not 0: among the values that match,
    the refinement [parseFloat(val) > 0] rejects "0", "0.0", "000.00" and
    the like, and nothing else. *)
Theorem amount_accepted_iff_nonzero (val : jsstring) :
  amountAccepted val
  = positiveDecimalRegex_test val && hasNonZeroDigit val.
Proof.
  unfold amountAccepted.
  destruct (positiveDecimalRegex_test val) eqn:H; [|reflexivity].
  cbn [andb]. apply positiveDecimalRegex_shape in H.
  destruct H as [w [f [Hw [[-> _]|[-> [Hf Hlen]]]]]].
  - rewrite (parseFloat_digits_alone w Hw).
    apply ltb_zero_of_decimal; [apply isDigits_all, Hw | lia].
  - rewrite (parseFloat_decimal w f Hw Hf).
    rewrite ltb_zero_of_decimal.
    + unfold hasNonZeroDigit. rewrite !existsb_app. reflexivity.
    + rewrite forallb_app. apply andb_true_iff.
      split; apply isDigits_all; assumption.
    + unfold JsString.code_unit in *. lia.
Qed.

(** ** Fractions written with a slash *)

Lemma nonzero_digits_not_zero (d : jsstring) :
  isDigits d = true -> hasNonZeroDigit d = true ->
  Number.eqb (Number.parseFloat d) Number.zero = false.
Proof.
  intros Hd Hn. rewrite (parseFloat_digits_alone d Hd).
  pose proof (ltb_zero_of_decimal d 0 (isDigits_all d Hd) ltac:(lia)) as H.
  rewrite Hn in H.
  destruct (Number.of_decimal false (Number.digits_value d) 0)
    as [s|s| |s m e]; try destruct s; try discriminate H; reflexivity.
Qed.

(** X11. A quantity written [n/d], with [n] and [d] runs of digits and a
    digit of [d] other than 0, is the quotient of the two numbers. *)
Theorem simple_fraction_is_quotient (n d : jsstring) :
  isDigits n = true -> isDigits d = true -> hasNonZeroDigit d = true ->
  parseFraction (n ++ 47%N :: d)%list
  = Number.div (Number.parseFloat n) (Number.parseFloat d).
Proof.
  intros Hn Hd Hz.
  apply simple_fraction_parsed; try assumption.
  apply nonzero_digits_not_zero; assumption.
Qed.

Lemma simple_fraction_is_quotient_witness :
  parseFraction (js "3" ++ 47%N :: js "8")%list
  = Number.div (Number.parseFloat (js "3")) (Number.parseFloat (js "8")).
Proof.
  apply (simple_fraction_is_quotient (js "3") (js "8")); vm_compute; reflexivity.
Defined.

(** X13. A mixed number written with an ASCII fraction, [w n/d], is not
    read as [w + n/d]. The slash branch comes first: it splits the text at
    the slash and reads the number at the head of each part, so the result
    is [w / d] and the numerator [n] is ignored (["1 1/2"] is read as 1/2,
    ["2 3/4"] as 2/4). *)
Theorem mixed_ascii_fraction_drops_numerator (w ws n d : jsstring) :
  isDigits w = true -> ws <> [] -> isBlank ws = true ->
  isDigits n = true -> isDigits d = true -> hasNonZeroDigit d = true ->
  parseFraction (w ++ ws ++ n ++ 47%N :: d)%list
  = Number.div (Number.parseFloat w) (Number.parseFloat d).
Proof.
  intros Hw Hws0 Hws Hn Hd Hz.
  apply mixed_ascii_fraction_parsed; try assumption.
  apply nonzero_digits_not_zero; assumption.
Qed.

Lemma mixed_ascii_fraction_drops_numerator_witness :
  parseFraction (js "1" ++ js " " ++ js "1" ++ 47%N :: js "2")%list
  = Number.div (Number.parseFloat (js "1")) (Number.parseFloat (js "2")).
Proof.
  apply (mixed_ascii_fraction_drops_numerator
           (js "1") (js " ") (js "1") (js "2"));
    try (vm_compute; reflexivity).
  vm_compute. discriminate.
Defined.

(** ** Spelling of units, and counts *)

Section Spelling.

Context {L : ToLowerCase} {LL : LowerCaseLaws L}.

(** X25. The cost of a line depends on its two units only through what
    they normalise to: writing either unit with another spelling of the
    same unit ("g", "Grams", " gm ") gives the same result. *)
Theorem cost_ignores_unit_spelling (i : Ingredient)
        (unit inventoryUnit : jsstring) (customConversions : list Conversion) :
  normalizeUnit unit = normalizeUnit (RecipeIngredientWithInventory.unit i) ->
  normalizeUnit inventoryUnit
  = normalizeUnit (InventoryItem.unit (inventoryItem i)) ->
  calculateIngredientCostWithConversion (withUnits i unit inventoryUnit)
                                        customConversions
  = calculateIngredientCostWithConversion i customConversions.
Proof.
  intros Hu Hi.
  unfold calculateIngredientCostWithConversion, resolveUnits, withUnits.
  cbn [RecipeIngredientWithInventory.quantity RecipeIngredientWithInventory.unit
       RecipeIngredientWithInventory.inventoryItem InventoryItem.unitQuantity
       InventoryItem.unitPrice InventoryItem.unit].
  rewrite Hu, Hi. reflexivity.
Qed.

End Spelling.

Lemma cost_ignores_unit_spelling_witness :
  calculateIngredientCostWithConversion
    (withUnits (sampleLine "200" "g" (sampleItem "1" "kg" "12.00"))
               (js " Grams") (js "Kilo"))
    []
  = calculateIngredientCostWithConversion
      (sampleLine "200" "g" (sampleItem "1" "kg" "12.00")) [].
Proof.
  apply (cost_ignores_unit_spelling
           (sampleLine "200" "g" (sampleItem "1" "kg" "12.00"))
           (js " Grams") (js "Kilo") []);
    vm_compute; reflexivity.
Defined.

Section Counts.

Context {L : ToLowerCase} {LL : LowerCaseLaws L}.

(** X26. The scan warns about a line exactly when its two units are not
    compatible: [lineWarning] is silent if and only if
    [areUnitsCompatible] holds of the recipe unit and the inventory unit,
    whatever custom conversions exist. *)
Theorem scan_warns_iff_incompatible (i : Ingredient)
        (customConversions : list Conversion) :
  lineWarning i customConversions = None
  <-> areUnitsCompatible (RecipeIngredientWithInventory.unit i)
                         (InventoryItem.unit (inventoryItem i)) = true.
Proof.
  split.
  - intros H.
    destruct (getStandardConversionFactor
                (RecipeIngredientWithInventory.unit i)
                (InventoryItem.unit (inventoryItem i))) as [f|] eqn:E.
    + rewrite areUnitsCompatible_resolved.
      apply standardFactor_resolved.
      rewrite <- getStandardConversionFactor_norm, E. discriminate.
    + rewrite (lineWarning_unresolved i customConversions E) in H.
      destruct (find _ _); discriminate H.
  - intros H. apply lineWarning_resolved. right.
    apply compatible_factor_exists in H. destruct H as [f ->]. discriminate.
Qed.

Lemma flat_map_length_le (A B : Type) (f : A -> list B) (l : list A) :
  (forall x, List.length (f x) <= 1) ->
  List.length (flat_map f l) <= List.length l.
Proof.
  intros H. induction l as [|x l IH]; simpl; [lia|].
  rewrite length_app. specialize (H x). lia.
Qed.

Lemma filter_length_le (A : Type) (p : A -> bool) (l : list A) :
  List.length (filter p l) <= List.length l.
Proof.
  induction l as [|x l IH]; simpl; [lia|].
  destruct (p x); simpl; lia.
Qed.

(** X27. A detailed result never reports more mismatches than the recipe
    has lines: the scan emits at most one warning per line. Its
    [linkedCount] and [totalIngredients] are both the number of lines,
    which is also the number of per-line results. *)
Theorem detailed_counts (ingredients : list Ingredient)
        (customConversions : list Conversion) :
  let detailed := calculateRecipeCostDetailed ingredients customConversions in
  List.length (detectUnitMismatches ingredients customConversions)
  <= List.length ingredients
  /\ List.length (RecipeCostDetailed.mismatches detailed)
     <= RecipeCostDetailed.totalIngredients detailed
  /\ RecipeCostDetailed.linkedCount detailed
     = RecipeCostDetailed.totalIngredients detailed
  /\ List.length (RecipeCostDetailed.ingredientCosts detailed)
     = RecipeCostDetailed.totalIngredients detailed.
Proof.
  cbv zeta.
  assert (H : List.length (detectUnitMismatches ingredients customConversions)
              <= List.length ingredients).
  { unfold detectUnitMismatches. rewrite detectUnitMismatches_loop_flat.
    cbn [app]. apply flat_map_length_le. intros i.
    destruct (lineWarning i customConversions); simpl; lia. }
  split; [exact H|]. unfold calculateRecipeCostDetailed.
  cbn [RecipeCostDetailed.mismatches RecipeCostDetailed.totalIngredients
       RecipeCostDetailed.linkedCount RecipeCostDetailed.ingredientCosts].
  split; [|split].
  - eapply Nat.le_trans; [apply filter_length_le | exact H].
  - reflexivity.
  - apply length_map.
Qed.

(** X10. What a result records is sound. A recorded [usedConversion] is a
    member of the conversion list that is authored for the line, and the
    result then reports no mismatch. A reported mismatch means that the
    units are not compatible and that no conversion of the list is
    authored for the line. *)
Theorem result_records_are_sound (i : Ingredient)
        (customConversions : list Conversion) :
  (forall c,
      usedConversion
        (calculateIngredientCostWithConversion i customConversions) = Some c ->
      In c customConversions /\ authoredFor i c
      /\ hasUnitMismatch
           (calculateIngredientCostWithConversion i customConversions) = false)
  /\ (hasUnitMismatch
        (calculateIngredientCostWithConversion i customConversions) = true ->
      usedConversion
        (calculateIngredientCostWithConversion i customConversions) = None
      /\ areUnitsCompatible (RecipeIngredientWithInventory.unit i)
                            (InventoryItem.unit (inventoryItem i)) = false
      /\ forall c, In c customConversions -> ~ authoredFor i c).
Proof.
  destruct (incompleteData i) eqn:G.
  - rewrite (incomplete_result i _ G). simpl.
    split; [intros c H|intros H]; discriminate H.
  - rewrite (complete_result i _ G). unfold resolveUnits.
    rewrite getStandardConversionFactor_normalized.
    destruct (JsString.eqb _ _) eqn:E; cbn [negb].
    { simpl. split; [intros c H|intros H]; discriminate H. }
    destruct (getStandardConversionFactor _ _) as [f|] eqn:S.
    { simpl. split; [intros c H|intros H]; discriminate H. }
    destruct (find _ customConversions) as [c0|] eqn:F; simpl.
    + split; [|intros H; discriminate H].
      intros c [= <-]. apply find_some in F. destruct F as [Hin Hc].
      apply conversionMatches_authoredFor in Hc. auto.
    + split; [intros c H; discriminate H|]. intros _.
      split; [reflexivity|]. split.
      * destruct (areUnitsCompatible _ _) eqn:C; [|reflexivity].
        apply compatible_factor_exists in C. destruct C as [f C].
        congruence.
      * intros c Hin Hc. apply conversionMatches_authoredFor in Hc.
        rewrite (find_none _ _ F c Hin) in Hc. discriminate Hc.
Qed.

End Counts.

Lemma scan_warns_iff_incompatible_witness :
  lineWarning (sampleLine "200" "Grams" (sampleItem "1" "KG" "12.00"))
              [sampleConversion "g" "kg" "2"] = None.
Proof.
  apply (proj2 (scan_warns_iff_incompatible
                  (sampleLine "200" "Grams" (sampleItem "1" "KG" "12.00"))
                  [sampleConversion "g" "kg" "2"])).
  vm_compute. reflexivity.
Defined.

Lemma result_records_are_sound_witness :
  areUnitsCompatible (js "g") (js "unit") = false.
Proof.
  refine (proj1 (proj2 (proj2 (result_records_are_sound
                                 (sampleLine "200" "g"
                                    (sampleItem "1" "unit" "12.00"))
                                 [sampleConversion "unit" "g" "100"])
                              _))).
  vm_compute. reflexivity.
Defined.
